(** * build_nuitka.py: configuration detection and command assembly

    A shallow embedding of [scripts/build_nuitka.py].  The script resolves a
    build configuration from parsed command-line arguments (application name,
    GUI framework, data directories), assembles the argument list of the
    external compiler and runs it as a child process.

    Layout:
    - [Str]: the operations of Python's [str] the script relies on;
    - [pathlib]: pure paths ([Path(...)], [.name], [.stem], [str(...)]);
    - [os]: the part of the host the script observes or changes (files,
      standard output, child processes) and a small state-and-exception monad;
    - [NuitkaBuildConfig], [run_build], [main]: the script itself;
    - the properties of the specification. *)

From Stdlib Require Import ZArith Ascii String List Bool Lia.
From stdpp Require Import base option list strings gmap fin_maps pretty.

Local Open Scope string_scope.
Local Open Scope list_scope.

(* ===================================================================== *)
(** ** Python strings *)
(* ===================================================================== *)

Module Str.

(** A Python [str] is modelled by its UTF-8 encoding.  Substring search is
    insensitive to that choice, because UTF-8 is self-synchronising. *)

(** [s.startswith(pre)]. *)
Fixpoint startswith (pre s : string) : bool :=
  match pre, s with
  | EmptyString, _ => true
  | String a pre', String b s' => Ascii.eqb a b && startswith pre' s'
  | String _ _, EmptyString => false
  end.

(** [needle in hay]. *)
Fixpoint contains (needle hay : string) : bool :=
  startswith needle hay ||
  match hay with
  | EmptyString => false
  | String _ rest => contains needle rest
  end.

(** [s.split(sep)] for a one-character separator: never the empty list. *)
Fixpoint split (sep : ascii) (s : string) : list string :=
  match s with
  | EmptyString => [EmptyString]
  | String c rest =>
      if Ascii.eqb c sep then EmptyString :: split sep rest
      else match split sep rest with
           | [] => [String c EmptyString]
           | w :: ws => String c w :: ws
           end
  end.

(** [sep.join(l)]. *)
Definition join (sep : string) (l : list string) : string :=
  String.concat sep l.

(** [s.lstrip(c)] for a one-character set. *)
Fixpoint lstrip (c : ascii) (s : string) : string :=
  match s with
  | String d rest => if Ascii.eqb d c then lstrip c rest else s
  | EmptyString => EmptyString
  end.

(** [s.replace(a, b)] for one-character [a] and [b]. *)
Fixpoint replace (a b : ascii) (s : string) : string :=
  match s with
  | EmptyString => EmptyString
  | String c rest => String (if Ascii.eqb c a then b else c) (replace a b rest)
  end.

(** [s.rfind(c)]: the last index of [c], [None] for Python's [-1]. *)
Fixpoint rfind (c : ascii) (s : string) : option nat :=
  match s with
  | EmptyString => None
  | String d rest =>
      match rfind c rest with
      | Some i => Some (S i)
      | None => if Ascii.eqb d c then Some 0 else None
      end
  end.

(** [s[:i]]. *)
Definition take (i : nat) (s : string) : string := String.substring 0 i s.

Definition is_upper (c : ascii) : bool :=
  ((65 <=? nat_of_ascii c) && (nat_of_ascii c <=? 90))%nat.

Definition is_alpha (c : ascii) : bool :=
  is_upper c || ((97 <=? nat_of_ascii c) && (nat_of_ascii c <=? 122))%nat.

(** [s.lower()] on ASCII text: bytes outside [A-Z] are left alone. *)
Fixpoint lower (s : string) : string :=
  match s with
  | EmptyString => EmptyString
  | String c rest =>
      String (if is_upper c then ascii_of_nat (nat_of_ascii c + 32) else c)
             (lower rest)
  end.

(** Truthiness of an optional string: [None] and [''] are falsy. *)
Definition truthy (o : option string) : bool :=
  match o with
  | Some (String _ _) => true
  | _ => false
  end.

(** The newline character of [\n] in a Python literal. *)
Definition nl : string := String (ascii_of_nat 10) EmptyString.

End Str.

(* ===================================================================== *)
(** ** pathlib: pure paths *)
(* ===================================================================== *)

Module pathlib.

(** [Path] instantiates [PosixPath] or [WindowsPath] after the host. *)
Inductive flavour := Posix | Windows.

Definition sep (fl : flavour) : ascii :=
  match fl with
  | Posix => "/"%char
  | Windows => "\"%char
  end.

(** A parsed path: drive, root, and the components below the anchor. *)
Record PurePath := mkPath {
  flav : flavour;
  drv : string;
  root : string;
  tail : list string;
}.

(** [splitroot]: the anchor of a path string and what follows it.  On
    POSIX exactly two leading slashes are kept, any other number collapses
    to one.  On Windows a drive letter followed by a colon is the drive;
    UNC and device prefixes get no special treatment here. *)
Definition splitroot (fl : flavour) (part : string) : string * string * string :=
  match fl with
  | Posix =>
      match part with
      | String "/" rest =>
          let stripped := Str.lstrip "/" part in
          if (String.length part - String.length stripped =? 2)%nat
          then ("", "//", stripped)
          else ("", "/", stripped)
      | _ => ("", "", part)
      end
  | Windows =>
      let '(d, rest) :=
        match part with
        | String c (String ":" rest) =>
            if Str.is_alpha c then (String c ":", rest) else ("", part)
        | _ => ("", part)
        end in
      match rest with
      | String "\" _ => (d, "\", Str.lstrip "\" rest)
      | _ => (d, "", rest)
      end
  end.

Definition keep_component (x : string) : bool :=
  negb (String.eqb x "") && negb (String.eqb x ".").

(** [Path(s)] for one string argument. *)
Definition parse (fl : flavour) (s : string) : PurePath :=
  let s' := match fl with
            | Posix => s
            | Windows => Str.replace "/" "\" s
            end in
  let '(d, r, rel) := splitroot fl s' in
  mkPath fl d r (filter (fun x => keep_component x = true) (Str.split (sep fl) rel)).

(** [str(p)]. *)
Definition str (p : PurePath) : string :=
  let body := Str.join (String (sep (flav p)) "") (tail p) in
  let anchored := drv p +:+ root p +:+ body in
  if String.eqb anchored "" then "." else anchored.

(** [p.name]: the final component, [''] when there is none. *)
Definition name (p : PurePath) : string := List.last (tail p) "".

(** [p.stem]: the name without its last suffix; a leading or trailing
    dot does not start a suffix. *)
Definition stem (p : PurePath) : string :=
  let name := name p in
  match Str.rfind "." name with
  | Some i =>
      if (0 <? i)%nat && (i <? String.length name - 1)%nat
      then Str.take i name
      else name
  | None => name
  end.

End pathlib.

(* ===================================================================== *)
(** ** The host: files, standard output, child processes *)
(* ===================================================================== *)

Module os.

(** What a path string names: a regular file with its text ([None] when
    its bytes are not valid UTF-8), or a directory. *)
Inductive node :=
| File (text : option string)
| Dir.

(** The outcome of starting a child process: it ran and left an exit
    status and a file system behind, or its executable was not found. *)
Inductive completed :=
| Exited (returncode : Z) (files : gmap string node)
| NoSuchExecutable.

(** The fixed part of the host.  [spawn] is the external world's answer
    to a command line; the script never looks inside it. *)
Record Host := mkHost {
  sys_platform : string;
  sys_executable : string;
  getcwd : string;
  spawn : list string → gmap string node → completed;
}.

(** The part of the host the script changes.  The file system is keyed by
    the path string handed to the operating system.  Each spelling is an
    entry of its own: the map does not relate two spellings of one file, so
    the statements below speak of the spellings the script itself uses. *)
Record State := mkState {
  fs : gmap string node;
  stdout : list string;
  subprocess_calls : list (list string);
}.

Inductive exn :=
| SystemExit (code : Z)
| CalledProcessError (returncode : Z)
| FileNotFoundError
| NotADirectoryError
| IsADirectoryError
| UnicodeDecodeError.

Inductive result (A : Type) :=
| Ok (a : A)
| Raise (e : exn).
Arguments Ok {A} a.
Arguments Raise {A} e.

(** Computations that read and change the state and may raise. *)
Definition M (A : Type) : Type := State → result A * State.

Global Instance M_ret : MRet M := λ A a st, (Ok a, st).

Global Instance M_bind : MBind M := λ A B f m st,
  match m st with
  | (Ok a, st') => f a st'
  | (Raise e, st') => (Raise e, st')
  end.

Definition raise {A} (e : exn) : M A := λ st, (Raise e, st).

(** [try: body / except ...: handler]; the handler answers [None] for an
    exception no clause matches, which then propagates. *)
Definition try_except {A} (body : M A) (handler : exn → option (M A)) : M A :=
  λ st,
    match body st with
    | (Ok a, st') => (Ok a, st')
    | (Raise e, st') =>
        match handler e with
        | Some k => k st'
        | None => (Raise e, st')
        end
    end.

(** [for x in xs: acc = body(acc, x)]. *)
Fixpoint for_ {A B} (xs : list A) (body : B → A → M B) (acc : B) : M B :=
  match xs with
  | [] => mret acc
  | x :: rest => acc' ← body acc x; for_ rest body acc'
  end.

(** The exit status of the process as the operating system reports it: the
    low eight bits of the code given to [sys.exit] (a code of -9 is seen as
    247), so a code from 0 to 255 is the status itself; an uncaught
    exception other than [SystemExit] ends the process with status 1. *)
Definition exit_status {A} (r : result A) : Z :=
  match r with
  | Ok _ => 0
  | Raise (SystemExit code) => code mod 256
  | Raise _ => 1
  end.

End os.
Import os.

(* ===================================================================== *)
(** ** The script *)
(* ===================================================================== *)

(** The namespace [argparse] hands to the script.  Options without a
    default are [None] when absent. *)
Module args.
Record Namespace := mk {
  name : option string;
  main : string;
  icon : option string;
  console : bool;
  onefile : bool;
  clean : bool;
  framework : option string;
}.
End args.

(** The attributes of a [NuitkaBuildConfig] instance. *)
Record NuitkaBuildConfig := mkConfig {
  main_file : pathlib.PurePath;
  app_name : string;
  icon : option string;
  console : bool;
  onefile : bool;
  clean : bool;
  framework : string;
  output_dir : pathlib.PurePath;
  build_dir : pathlib.PurePath;
}.

(** The class attribute [FRAMEWORK_PLUGINS]. *)
Definition FRAMEWORK_PLUGINS : gmap string (list string) :=
  list_to_map [
    ("pyside6", ["pyside6"]);
    ("pyqt6", ["pyqt6"]);
    ("pyqt5", ["pyqt5"]);
    ("qt", ["pyside6"]);
    ("ctk", ["tk-inter"]);
    ("tkinter", ["tk-inter"]);
    ("flet", [])
  ].

(** [get_plugins]: [self.FRAMEWORK_PLUGINS.get(self.framework, [])]. *)
Definition get_plugins (self : NuitkaBuildConfig) : list string :=
  default [] (FRAMEWORK_PLUGINS !! framework self).

Section Script.

Variable host : Host.

(** [os.name == 'nt'] exactly when [sys.platform == 'win32']. *)
Definition flavour : pathlib.flavour :=
  if String.eqb (sys_platform host) "win32" then pathlib.Windows else pathlib.Posix.

Definition Path (s : string) : pathlib.PurePath := pathlib.parse flavour s.

Definition Path_cwd : M pathlib.PurePath := mret (Path (getcwd host)).

(** *** Files *)

Definition exists_ (p : pathlib.PurePath) : M bool := λ st,
  (Ok (bool_decide (is_Some (fs st !! pathlib.str p))), st).

Definition is_dir (p : pathlib.PurePath) : M bool := λ st,
  (Ok match fs st !! pathlib.str p with
      | Some Dir => true
      | _ => false
      end, st).

Definition read_text (p : pathlib.PurePath) : M string := λ st,
  match fs st !! pathlib.str p with
  | Some (File (Some text)) => (Ok text, st)
  | Some (File None) => (Raise UnicodeDecodeError, st)
  | Some Dir => (Raise IsADirectoryError, st)
  | None => (Raise FileNotFoundError, st)
  end.

(** The path strings at or below [p] as spelled from [str(p)]: that string
    itself and those that extend it by a separator. *)
Definition within (p : pathlib.PurePath) (k : string) : bool :=
  String.eqb k (pathlib.str p) ||
  Str.startswith (pathlib.str p +:+ String (pathlib.sep (pathlib.flav p)) "") k.

(** [shutil.rmtree(p)]: removes a directory and what is below it; raises
    on anything that is not a directory. *)
Definition shutil_rmtree (p : pathlib.PurePath) : M unit := λ st,
  match fs st !! pathlib.str p with
  | Some Dir =>
      (Ok tt, mkState (filter (λ kv, within p kv.1 = false) (fs st))
                      (stdout st) (subprocess_calls st))
  | Some (File _) => (Raise NotADirectoryError, st)
  | None => (Raise FileNotFoundError, st)
  end.

(** *** Output, exit, child processes *)

Definition print (line : string) : M unit := λ st,
  (Ok tt, mkState (fs st) (stdout st ++ [line]) (subprocess_calls st)).

Definition sys_exit {A} (code : Z) : M A := raise (SystemExit code).

(** [subprocess.run(cmd, check=True)]: returns the exit status, which is
    then 0; raises [CalledProcessError] on any other status and
    [FileNotFoundError] when the executable cannot be started. *)
Definition subprocess_run (cmd : list string) : M Z := λ st,
  match spawn host cmd (fs st) with
  | Exited rc files =>
      let st' := mkState files (stdout st) (subprocess_calls st ++ [cmd]) in
      if (rc =? 0)%Z then (Ok rc, st') else (Raise (CalledProcessError rc), st')
  | NoSuchExecutable =>
      (Raise FileNotFoundError,
       mkState (fs st) (stdout st) (subprocess_calls st ++ [cmd]))
  end.

(** *** class NuitkaBuildConfig *)

(** [_detect_app_name].  It runs inside [__init__] when only
    [self.main_file] is set, so it takes that attribute. *)
Definition _detect_app_name (main_file : pathlib.PurePath) : M string :=
  if negb (String.eqb (pathlib.stem main_file) "main")
  then mret (pathlib.stem main_file)
  else cwd ← Path_cwd; mret (pathlib.name cwd).

(** [_detect_framework], on [self.main_file] likewise. *)
Definition _detect_framework (main_file : pathlib.PurePath) : M string :=
  detected ← try_except (A := option string)
    (content ← read_text main_file;
     if Str.contains "PySide6" content || Str.contains "pyside6" content
     then mret (Some "pyside6")
     else if Str.contains "PyQt6" content then mret (Some "pyqt6")
     else if Str.contains "PyQt5" content then mret (Some "pyqt5")
     else if Str.contains "customtkinter" content || Str.contains "ctk" content
     then mret (Some "ctk")
     else if Str.contains "flet" content then mret (Some "flet")
     else if Str.contains "tkinter" content then mret (Some "tkinter")
     else mret None)
    (λ e, match e with
          | SystemExit _ => None
          | _ => Some (mret None)
          end);
  match detected with
  | Some fw => mret fw
  | None => mret "pyside6"
  end.

(** [__init__]. *)
Definition __init__ (a : args.Namespace) : M NuitkaBuildConfig :=
  let main_file := Path (args.main a) in
  app_name ← (if Str.truthy (args.name a)
              then mret (default "" (args.name a))
              else _detect_app_name main_file);
  framework ← (if Str.truthy (args.framework a)
               then mret (Str.lower (default "" (args.framework a)))
               else _detect_framework main_file);
  mret (mkConfig main_file app_name (args.icon a) (args.console a)
                 (args.onefile a) (args.clean a) framework
                 (Path "dist") (Path "build")).

(** [get_data_dirs]. *)
Definition common_dirs : list string :=
  ["assets"; "resources"; "static"; "images"; "icons"; "fonts"; "themes"].

Definition get_data_dirs (self : NuitkaBuildConfig) : M (list string) :=
  for_ common_dirs
    (λ (found : list string) (d : string),
       present ← is_dir (Path d);
       if (present : bool) then mret (found ++ [d]) else mret found)
    [].

(** *** run_build *)

Definition win32 : bool := String.eqb (sys_platform host) "win32".
Definition darwin : bool := String.eqb (sys_platform host) "darwin".

Definition msg_cleaning : string := "🧹 Cleaning previous build artifacts...".

(** Lines 99-104: clean previous builds if requested. *)
Definition clean_artifacts (config : NuitkaBuildConfig) : M unit :=
  if clean config then
    print msg_cleaning ;;
    for_ [output_dir config; build_dir config]
      (λ (_ : unit) (d : pathlib.PurePath),
         present ← exists_ d;
         if (present : bool) then shutil_rmtree d else mret tt)
      tt
  else mret tt.

(** Lines 106-161: the command, grown by [append] and [extend]. *)
Definition build_command (config : NuitkaBuildConfig) : M (list string) :=
  let cmd := [sys_executable host; "-m"; "nuitka";
              "--standalone";
              "--output-dir=" +:+ pathlib.str (output_dir config)] in
  let cmd := if onefile config then cmd ++ ["--onefile"] else cmd in
  let cmd := if win32 && negb (console config)
             then cmd ++ ["--windows-disable-console"]
             else if darwin && negb (console config)
             then cmd ++ ["--macos-disable-console"]
             else cmd in
  let cmd := fold_left (λ cmd plugin, cmd ++ ["--enable-plugin=" +:+ plugin])
                       (get_plugins config) cmd in
  data_dirs ← get_data_dirs config;
  let cmd := fold_left
               (λ cmd data_dir,
                  cmd ++ ["--include-data-dir=" +:+ data_dir +:+ "=" +:+ data_dir])
               data_dirs cmd in
  let cmd := if Str.truthy (icon config)
             then if win32
                  then cmd ++ ["--windows-icon-from-ico=" +:+ default "" (icon config)]
                  else if darwin
                  then cmd ++ ["--macos-app-icon=" +:+ default "" (icon config)]
                  else cmd
             else cmd in
  let cmd := if win32
             then cmd ++ ["--product-name=" +:+ app_name config;
                          "--file-description=" +:+ app_name config;
                          "--file-version=1.0.0.0";
                          "--product-version=1.0.0.0"]
             else cmd in
  let cmd := if darwin
             then cmd ++ ["--macos-create-app-bundle";
                          "--macos-app-name=" +:+ app_name config]
             else cmd in
  let cmd := cmd ++ ["--assume-yes-for-downloads"; "--remove-output"] in
  let cmd := cmd ++ [pathlib.str (main_file config)] in
  mret cmd.

Definition msg_main_not_found (config : NuitkaBuildConfig) : string :=
  "❌ Error: Main file '" +:+ pathlib.str (main_file config) +:+ "' not found!".

Definition msg_success (config : NuitkaBuildConfig) : string :=
  Str.nl +:+ "✅ Build successful! Output in '"
         +:+ pathlib.str (output_dir config) +:+ "'".

Definition msg_failed (returncode : Z) : string :=
  Str.nl +:+ "❌ Build failed with exit code " +:+ pretty returncode.

Definition msg_not_found : string :=
  Str.nl +:+ "❌ Nuitka not found! Install with: pip install nuitka".

(** Lines 163-178: print the command and run it. *)
Definition execute (config : NuitkaBuildConfig) (cmd : list string) : M unit :=
  print ("🚀 Building '" +:+ app_name config +:+ "' with Nuitka...") ;;
  print ("📦 Framework: " +:+ framework config) ;;
  print ("📁 Output: " +:+ pathlib.str (output_dir config)) ;;
  print (Str.nl +:+ "💻 Command:" +:+ Str.nl +:+ Str.join " " cmd +:+ Str.nl) ;;
  try_except
    (result ← subprocess_run cmd;
     print (msg_success config))
    (λ e, match e with
          | CalledProcessError returncode =>
              Some (print (msg_failed returncode) ;; sys_exit returncode)
          | FileNotFoundError =>
              Some (print msg_not_found ;; sys_exit 1)
          | _ => None
          end).

Definition run_build (config : NuitkaBuildConfig) : M unit :=
  present ← exists_ (main_file config);
  (if negb present
   then print (msg_main_not_found config) ;; sys_exit 1
   else mret tt) ;;
  clean_artifacts config ;;
  cmd ← build_command config;
  execute config cmd.

(** [main], after [parser.parse_args()]. *)
Definition main (a : args.Namespace) : M unit :=
  config ← __init__ a;
  run_build config.

End Script.

(* ===================================================================== *)
(** ** The specification, in the terms of the script *)
(* ===================================================================== *)

(** Whether the path string [d] names a directory. *)
Definition is_directory (st : State) (d : string) : bool :=
  match fs st !! d with
  | Some Dir => true
  | _ => false
  end.

(** The text [read_text] returns for a path, when it returns. *)
Definition text_of (st : State) (p : pathlib.PurePath) : option string :=
  match fs st !! pathlib.str p with
  | Some (File (Some text)) => Some text
  | _ => None
  end.

(** Framework detection as the specification words it: a table of
    identifying tokens in priority order, the first entry with a token
    present wins, and a fixed default otherwise. *)
Definition framework_tokens : list (list string * string) :=
  [ (["PySide6"; "pyside6"], "pyside6");
    (["PyQt6"], "pyqt6");
    (["PyQt5"], "pyqt5");
    (["customtkinter"; "ctk"], "ctk");
    (["flet"], "flet");
    (["tkinter"], "tkinter") ].

Definition default_framework : string := "pyside6".

(** Whether one of the tokens of a table entry occurs in the text. *)
Definition entry_matches (content : string) (entry : list string * string) : bool :=
  existsb (λ token, Str.contains token content) entry.1.

Definition first_match (content : string) : option string :=
  snd <$> List.find (entry_matches content) framework_tokens.

Definition detect_by_priority (text : option string) : string :=
  default default_framework (text ≫= first_match).

(** The attributes [__init__] computes, as functions of the arguments. *)
Definition resolved_app_name (host : Host) (a : args.Namespace) : string :=
  if Str.truthy (args.name a) then default "" (args.name a)
  else if negb (String.eqb (pathlib.stem (Path host (args.main a))) "main")
  then pathlib.stem (Path host (args.main a))
  else pathlib.name (Path host (getcwd host)).

Definition resolved_framework (host : Host) (a : args.Namespace) (st : State) : string :=
  if Str.truthy (args.framework a) then Str.lower (default "" (args.framework a))
  else detect_by_priority (text_of st (Path host (args.main a))).

(** The ten steps of flag assembly, one definition per step, as the
    specification lists them. *)
Section Steps.

Variable host : Host.
Variable config : NuitkaBuildConfig.

Definition baseline_flags : list string :=
  ["--standalone"; "--output-dir=" +:+ pathlib.str (output_dir config)].

Definition onefile_flags : list string :=
  if onefile config then ["--onefile"] else [].

Definition console_flags : list string :=
  if console config then []
  else if win32 host then ["--windows-disable-console"]
  else if darwin host then ["--macos-disable-console"]
  else [].

Definition plugin_flags : list string :=
  map (λ plugin, "--enable-plugin=" +:+ plugin) (get_plugins config).

Definition data_flags (data_dirs : list string) : list string :=
  map (λ d, "--include-data-dir=" +:+ d +:+ "=" +:+ d) data_dirs.

Definition icon_flags : list string :=
  match icon config with
  | Some (String _ _ as path) =>
      if win32 host then ["--windows-icon-from-ico=" +:+ path]
      else if darwin host then ["--macos-app-icon=" +:+ path]
      else []
  | _ => []
  end.

Definition metadata_flags : list string :=
  if win32 host
  then ["--product-name=" +:+ app_name config;
        "--file-description=" +:+ app_name config;
        "--file-version=1.0.0.0";
        "--product-version=1.0.0.0"]
  else [].

Definition bundle_flags : list string :=
  if darwin host
  then ["--macos-create-app-bundle"; "--macos-app-name=" +:+ app_name config]
  else [].

Definition trailing_flags : list string :=
  ["--assume-yes-for-downloads"; "--remove-output"].

Definition flag_list (data_dirs : list string) : list string :=
  baseline_flags ++ onefile_flags ++ console_flags ++ plugin_flags ++
  data_flags data_dirs ++ icon_flags ++ metadata_flags ++ bundle_flags ++
  trailing_flags.

(** The interpreter running the compiler module, the flags, the entry
    point. *)
Definition command_line (data_dirs : list string) : list string :=
  [sys_executable host; "-m"; "nuitka"] ++ flag_list data_dirs ++
  [pathlib.str (main_file config)].

End Steps.

(** What [shutil_rmtree] leaves of the files. *)
Definition removed (p : pathlib.PurePath) (files : gmap string node) : gmap string node :=
  filter (λ kv, within p kv.1 = false) files.

(** What one round of the cleaning loop leaves of the files. *)
Definition cleaned (p : pathlib.PurePath) (files : gmap string node) : gmap string node :=
  match files !! pathlib.str p with
  | Some Dir => removed p files
  | _ => files
  end.

(** The path names nothing, or a directory. *)
Definition absent_or_dir (files : gmap string node) (p : pathlib.PurePath) : Prop :=
  ∀ text, files !! pathlib.str p ≠ Some (File text).

(** The four lines printed before the compiler starts. *)
Definition banner (config : NuitkaBuildConfig) (cmd : list string) : list string :=
  ["🚀 Building '" +:+ app_name config +:+ "' with Nuitka...";
   "📦 Framework: " +:+ framework config;
   "📁 Output: " +:+ pathlib.str (output_dir config);
   Str.nl +:+ "💻 Command:" +:+ Str.nl +:+ Str.join " " cmd +:+ Str.nl].

(** The tokens that take priority over the plain tkinter token. *)
Definition earlier_tokens : list string :=
  ["PySide6"; "pyside6"; "PyQt6"; "PyQt5"; "customtkinter"; "ctk"; "flet"].

(* ===================================================================== *)
(** ** Example hosts, files and configurations *)
(* ===================================================================== *)

(** A configuration whose framework is not in the plugin table. *)
Definition wx_config : NuitkaBuildConfig :=
  mkConfig (pathlib.parse pathlib.Posix "main.py") "proj" None false false false
           "wxpython"
           (pathlib.parse pathlib.Posix "dist") (pathlib.parse pathlib.Posix "build").

Definition linux_host : Host :=
  mkHost "linux" "/usr/bin/python3" "/home/dev/proj"
         (λ cmd files, Exited 0 (<["dist" := Dir]> files)).

Definition windows_host : Host :=
  mkHost "win32" "C:\Python\python.exe" "C:\work\proj"
         (λ cmd files, Exited 0 (<["dist" := Dir]> files)).

Definition app_state : State :=
  mkState {[ "app.py" := File (Some "import tkinter") ]} [] [].

Definition app_args : args.Namespace :=
  args.mk None "app.py" None false false false None.

Definition clean_args : args.Namespace :=
  args.mk None "missing.py" None false false true None.

Definition dist_state : State :=
  mkState {[ "dist" := Dir; "dist/app.bin" := File None; "build" := Dir ]} [] [].

Definition failing_host : Host :=
  mkHost "linux" "/usr/bin/python3" "/home/dev/proj"
         (λ cmd files, Exited 3 files).

Definition app_config : NuitkaBuildConfig :=
  mkConfig (pathlib.parse pathlib.Posix "app.py") "app" None false false true
           "tkinter"
           (pathlib.parse pathlib.Posix "dist") (pathlib.parse pathlib.Posix "build").

Definition built_state : State :=
  mkState {[ "app.py" := File (Some "import tkinter");
             "dist" := Dir;
             "dist/app.bin" := File None;
             "build" := Dir ]} [] [].

(** A regular file in the place of the output directory. *)
Definition blocked_state : State :=
  mkState {[ "app.py" := File (Some "import tkinter");
             "dist" := File (Some "notes") ]} [] [].

(** The configuration resolved for [app.py] on a Windows host. *)
Definition tkinter_config : NuitkaBuildConfig :=
  mkConfig (pathlib.parse pathlib.Windows "app.py") "app" None false false false
           "tkinter"
           (pathlib.parse pathlib.Windows "dist")
           (pathlib.parse pathlib.Windows "build").

(** A text with a higher-priority token next to [import tkinter]. *)
Definition mixed_state : State :=
  mkState {[ "app.py" := File (Some "import tkinter  # was: import PySide6") ]} [] [].

(* ===================================================================== *)
(** ** Further definitions: the parser's choices, more examples *)
(* ===================================================================== *)

(** The [choices] of the [--framework] option (line 192). *)
Definition framework_choices : list string :=
  ["pyside6"; "pyqt6"; "pyqt5"; "qt"; "ctk"; "tkinter"; "flet"].

(** The frameworks detection can answer. *)
Definition detectable_frameworks : list string :=
  ["pyside6"; "pyqt6"; "pyqt5"; "ctk"; "flet"; "tkinter"].

(** The plugin names of the table. *)
Definition known_plugins : list string :=
  ["pyside6"; "pyqt6"; "pyqt5"; "tk-inter"].

(** Arguments that name the framework. *)
Definition qt_args : args.Namespace :=
  args.mk None "app.py" None false false false (Some "qt").

(** A text importing customtkinter. *)
Definition ctk_state : State :=
  mkState {[ "app.py" := File (Some "import customtkinter as ui") ]} [] [].

(** A build path that is a regular file next to a real output directory. *)
Definition half_blocked_state : State :=
  mkState {[ "app.py" := File (Some "import tkinter");
             "dist" := Dir;
             "dist/app.bin" := File None;
             "build" := File (Some "notes") ]} [] [].

(** An entry point that lies inside the output directory. *)
Definition inside_config : NuitkaBuildConfig :=
  mkConfig (pathlib.parse pathlib.Posix "dist/app.py") "app" None false false true
           "tkinter"
           (pathlib.parse pathlib.Posix "dist") (pathlib.parse pathlib.Posix "build").

Definition inside_state : State :=
  mkState {[ "dist" := Dir; "dist/app.py" := File (Some "import tkinter") ]} [] [].

(** The same build as [app_config], with an icon, a console and another
    name. *)
Definition loud_config : NuitkaBuildConfig :=
  mkConfig (pathlib.parse pathlib.Posix "app.py") "other" (Some "app.ico") true
           false false "tkinter"
           (pathlib.parse pathlib.Posix "dist") (pathlib.parse pathlib.Posix "build").

(** A host with Python but without Nuitka: [python -m nuitka] reports that
    there is no module named nuitka and exits with status 1. *)
Definition no_nuitka_host : Host :=
  mkHost "linux" "/usr/bin/python3" "/home/dev/proj"
         (λ cmd files, Exited 1 files).

(** The build of [app.py] with every option left at its default. *)
Definition plain_config : NuitkaBuildConfig :=
  mkConfig (pathlib.parse pathlib.Posix "app.py") "app" None false false false
           "tkinter"
           (pathlib.parse pathlib.Posix "dist") (pathlib.parse pathlib.Posix "build").


(* ===================================================================== *)
(** ** Facts about the string operations *)
(* ===================================================================== *)

Lemma append_assoc (a b c : string) : (a +:+ b) +:+ c = a +:+ b +:+ c.
Proof.
  induction a as [|x a IH]; [done|].
  change (String x ((a +:+ b) +:+ c) = String x (a +:+ b +:+ c)).
  by rewrite IH.
Qed.

Lemma startswith_true_iff (n h : string) :
  Str.startswith n h = true ↔ ∃ post, h = n +:+ post.
Proof.
  revert h. induction n as [|a n IH]; intros h; simpl.
  - split; [intros _; by exists h | done].
  - destruct h as [|b h].
    + split; [done | intros [post Hp]; discriminate].
    + rewrite andb_true_iff, Ascii.eqb_eq, IH. split.
      * intros [-> [post ->]]. by exists post.
      * intros [post Hp]. injection Hp as -> ->. split; [done | by exists post].
Qed.

(** [Str.contains] is Python's [in]: the needle occurs somewhere. *)
Lemma contains_true_iff (n h : string) :
  Str.contains n h = true ↔ ∃ pre post, h = pre +:+ n +:+ post.
Proof.
  induction h as [|c h IH]; simpl.
  - rewrite orb_false_r, startswith_true_iff. split.
    + intros [post Hp]. by exists "", post.
    + intros [pre [post Hp]]. destruct pre; [by exists post | discriminate].
  - rewrite orb_true_iff, IH, startswith_true_iff. split.
    + intros [[post Hp] | [pre [post ->]]].
      * by exists "", post.
      * by exists (String c pre), post.
    + intros [pre [post Hp]]. destruct pre as [|d pre]; simpl in Hp.
      * left. by exists post.
      * right. exists pre, post. by injection Hp.
Qed.

Lemma contains_weaken (lead n h : string) :
  Str.contains (lead +:+ n) h = true → Str.contains n h = true.
Proof.
  rewrite !contains_true_iff. intros [pre [post ->]].
  exists (pre +:+ lead), post.
  by rewrite !append_assoc.
Qed.

(* ===================================================================== *)
(** ** Running the monad *)
(* ===================================================================== *)

Lemma bind_ok {A B} (m : M A) (k : A → M B) st a st' :
  m st = (Ok a, st') → (m ≫= k) st = k a st'.
Proof. intros H. unfold mbind, M_bind. by rewrite H. Qed.

Lemma bind_raise {A B} (m : M A) (k : A → M B) st e st' :
  m st = (Raise e, st') → (m ≫= k) st = (Raise e, st').
Proof. intros H. unfold mbind, M_bind. by rewrite H. Qed.

Lemma fold_left_append {A} (f : A → string) (xs : list A) (cmd : list string) :
  fold_left (λ cmd x, cmd ++ [f x]) xs cmd = cmd ++ map f xs.
Proof.
  revert cmd. induction xs as [|x xs IH]; intros cmd; simpl.
  - by rewrite app_nil_r.
  - by rewrite IH, <- app_assoc.
Qed.

Lemma filter_sublist {A} (P : A → bool) (l : list A) :
  sublist (List.filter P l) l.
Proof.
  induction l as [|x l IH]; simpl; [constructor|].
  destruct (P x); by constructor.
Qed.

Lemma filter_none {A} (P : A → bool) (l : list A) :
  (∀ x, x ∈ l → P x = false) → List.filter P l = [].
Proof.
  induction l as [|x l IH]; intros H; simpl; [done|].
  rewrite (H x) by (by left). apply IH. intros y Hy. apply H. by right.
Qed.

(** A loop that only reads the state and appends the elements it accepts
    collects them in order. *)
Lemma for_collect {A} (P : A → bool) (body : list A → A → M (list A))
    (xs : list A) (acc : list A) (st : State) :
  (∀ d found, d ∈ xs → body found d st = (Ok (if P d then found ++ [d] else found), st)) →
  for_ xs body acc st = (Ok (acc ++ List.filter P xs), st).
Proof.
  revert acc. induction xs as [|x xs IH]; intros acc Hbody; simpl.
  - by rewrite app_nil_r.
  - erewrite bind_ok; [|apply Hbody; by left].
    rewrite IH; [|intros d found Hd; apply Hbody; by right].
    destruct (P x); [by rewrite <- app_assoc | done].
Qed.

(* ===================================================================== *)
(** ** Plugins and data directories *)
(* ===================================================================== *)

(** C4. A framework identifier that is not a key of [FRAMEWORK_PLUGINS]
    resolves to the empty plugin list; [get_plugins] is a total function,
    so there is no error to raise. *)
Theorem get_plugins_unknown_framework (self : NuitkaBuildConfig) :
  framework self ∉ dom FRAMEWORK_PLUGINS →
  get_plugins self = [].
Proof.
  intros H%not_elem_of_dom. unfold get_plugins. by rewrite H.
Qed.

Lemma get_plugins_unknown_framework_witness :
  (framework wx_config ∉ dom FRAMEWORK_PLUGINS) ∧ get_plugins wx_config = [].
Proof.
  split.
  - apply not_elem_of_dom. vm_compute. reflexivity.
  - apply (get_plugins_unknown_framework wx_config).
    apply not_elem_of_dom. vm_compute. reflexivity.
Defined.

(** The candidate names are already in the form [str(Path(d))] gives them,
    on either flavour. *)
Lemma common_dirs_str (host : Host) (d : string) :
  d ∈ common_dirs → pathlib.str (Path host d) = d.
Proof.
  unfold Path, flavour, common_dirs. intros Hd.
  destruct (String.eqb (sys_platform host) "win32");
    repeat (apply elem_of_cons in Hd as [-> | Hd]; [vm_compute; reflexivity|]);
    by apply elem_of_nil in Hd.
Qed.

Lemma get_data_dirs_filter (host : Host) (self : NuitkaBuildConfig) (st : State) :
  get_data_dirs host self st = (Ok (List.filter (is_directory st) common_dirs), st).
Proof.
  unfold get_data_dirs.
  rewrite (for_collect (is_directory st)); [done|].
  intros d found Hd. unfold is_directory.
  erewrite bind_ok; [|reflexivity]. simpl.
  rewrite (common_dirs_str host d Hd).
  by destruct (fs st !! d) as [[]|].
Qed.

(** C5. Data-directory discovery returns exactly those names of the fixed
    candidate list (assets, resources, static, images, icons, fonts, themes)
    that exist as directories, in the order of that list, and the empty
    list when none of them exists. It leaves the state as it was. *)
Theorem get_data_dirs_exact (host : Host) (self : NuitkaBuildConfig) (st : State) :
  ∃ found,
    get_data_dirs host self st = (Ok found, st) ∧
    found = List.filter (is_directory st)
              ["assets"; "resources"; "static"; "images"; "icons"; "fonts"; "themes"] ∧
    (∀ d, d ∈ found ↔ d ∈ common_dirs ∧ fs st !! d = Some Dir) ∧
    sublist found common_dirs ∧
    ((∀ d, d ∈ common_dirs → fs st !! d ≠ Some Dir) → found = []).
Proof.
  exists (List.filter (is_directory st) common_dirs).
  split; [apply get_data_dirs_filter|]. split; [done|].
  split; [|split].
  - intros d. rewrite list_elem_of_In, filter_In, <- list_elem_of_In.
    unfold is_directory.
    destruct (fs st !! d) as [[]|]; split; intros [Hin Hd]; (done || by split).
  - apply filter_sublist.
  - intros Hnone. apply filter_none. intros d Hd.
    specialize (Hnone d Hd). unfold is_directory.
    by destruct (fs st !! d) as [[]|].
Qed.

(* ===================================================================== *)
(** ** Resolving the configuration *)
(* ===================================================================== *)

Lemma detect_framework_run (p : pathlib.PurePath) (st : State) :
  _detect_framework p st = (Ok (detect_by_priority (text_of st p)), st).
Proof.
  unfold _detect_framework, try_except, read_text, text_of, detect_by_priority.
  unfold mbind, M_bind.
  destruct (fs st !! pathlib.str p) as [[[content|]|]|]; try reflexivity.
  unfold first_match, framework_tokens, entry_matches. simpl.
  repeat (match goal with
          | |- context [Str.contains ?t content] =>
              destruct (Str.contains t content); simpl; try reflexivity
          end).
Qed.

Lemma detect_app_name_run (host : Host) (p : pathlib.PurePath) (st : State) :
  _detect_app_name host p st =
  (Ok (if negb (String.eqb (pathlib.stem p) "main")
       then pathlib.stem p
       else pathlib.name (Path host (getcwd host))), st).
Proof.
  unfold _detect_app_name. by destruct (negb (String.eqb (pathlib.stem p) "main")).
Qed.

Lemma init_run (host : Host) (a : args.Namespace) (st : State) :
  __init__ host a st =
  (Ok (mkConfig (Path host (args.main a)) (resolved_app_name host a)
                (args.icon a) (args.console a) (args.onefile a) (args.clean a)
                (resolved_framework host a st)
                (Path host "dist") (Path host "build")), st).
Proof.
  unfold __init__, resolved_app_name, resolved_framework.
  destruct (Str.truthy (args.name a)), (Str.truthy (args.framework a));
    do 2 (erewrite bind_ok;
          [|first [apply detect_app_name_run | apply detect_framework_run | reflexivity]]);
    reflexivity.
Qed.

Lemma find_first {A} (f : A → bool) (before : list A) (x : A) (after : list A) :
  Forall (λ y, f y = false) before → f x = true →
  List.find f (before ++ x :: after) = Some x.
Proof.
  induction 1 as [|y before Hy _ IH]; intros Hx; simpl.
  - by rewrite Hx.
  - rewrite Hy. by apply IH.
Qed.

Lemma find_none {A} (f : A → bool) (l : list A) :
  Forall (λ y, f y = false) l → List.find f l = None.
Proof. induction 1 as [|y l Hy _ IH]; simpl; [done | by rewrite Hy]. Qed.

(** C3. Without an explicit framework, detection scans the text of the entry
    file against the token table in its order (PySide, PyQt6, PyQt5,
    custom-tkinter, Flet, tkinter): the first entry with a token in the text
    gives the framework, so a text with both a PySide and a PyQt5 token
    resolves to PySide; when the file cannot be read, or no token occurs,
    the result is the default framework. *)
Theorem detect_framework_first_match (host : Host) (st : State) :
  (∀ p, _detect_framework p st = (Ok (detect_by_priority (text_of st p)), st)) ∧
  (∀ p content before tokens fw after,
     text_of st p = Some content →
     framework_tokens = before ++ (tokens, fw) :: after →
     Forall (λ entry, entry_matches content entry = false) before →
     entry_matches content (tokens, fw) = true →
     _detect_framework p st = (Ok fw, st)) ∧
  (∀ p content,
     text_of st p = Some content →
     Str.contains "PySide6" content = true → Str.contains "PyQt5" content = true →
     _detect_framework p st = (Ok "pyside6", st)) ∧
  (∀ p content,
     text_of st p = Some content →
     Forall (λ entry, entry_matches content entry = false) framework_tokens →
     _detect_framework p st = (Ok default_framework, st)) ∧
  (∀ p, text_of st p = None → _detect_framework p st = (Ok default_framework, st)) ∧
  (∀ a, Str.truthy (args.framework a) = false →
     ∃ config, __init__ host a st = (Ok config, st) ∧
       _detect_framework (main_file config) st = (Ok (framework config), st)).
Proof.
  split; [intros p; apply detect_framework_run|].
  split; [|split; [|split; [|split]]].
  - intros p content before tokens fw after Htext Htable Hbefore Hentry.
    rewrite detect_framework_run, Htext. do 2 f_equal.
    change (detect_by_priority (Some content))
      with (default default_framework
              (snd <$> List.find (entry_matches content) framework_tokens)).
    rewrite Htable.
    by rewrite (find_first (entry_matches content) before (tokens, fw) after).
  - intros p content Htext Hside _.
    rewrite detect_framework_run, Htext.
    unfold detect_by_priority, first_match, framework_tokens, entry_matches. simpl.
    by rewrite Hside.
  - intros p content Htext Hnone.
    rewrite detect_framework_run, Htext. do 2 f_equal.
    change (detect_by_priority (Some content))
      with (default default_framework
              (snd <$> List.find (entry_matches content) framework_tokens)).
    by rewrite (find_none (entry_matches content) framework_tokens).
  - intros p Htext. by rewrite detect_framework_run, Htext.
  - intros a Hfw. eexists. split; [apply init_run|]. simpl.
    rewrite detect_framework_run. unfold resolved_framework. by rewrite Hfw.
Qed.

Lemma detect_framework_first_match_witness :
  _detect_framework (Path linux_host "app.py") app_state = (Ok "tkinter", app_state).
Proof.
  apply (proj1 (proj2 (detect_framework_first_match linux_host app_state))
           (Path linux_host "app.py") "import tkinter"
           [(["PySide6"; "pyside6"], "pyside6"); (["PyQt6"], "pyqt6");
            (["PyQt5"], "pyqt5"); (["customtkinter"; "ctk"], "ctk");
            (["flet"], "flet")]
           ["tkinter"] "tkinter" []).
  - reflexivity.
  - reflexivity.
  - repeat constructor.
  - reflexivity.
Defined.

(** C2, as the code has it. With no name given, or an empty one, the
    application name is the stem of the entry file when that stem differs
    from [main], and the name of the current working directory otherwise.
    A non-empty name is used verbatim. *)
Theorem app_name_resolution (host : Host) (a : args.Namespace) (st : State) :
  ∃ config,
    __init__ host a st = (Ok config, st) ∧
    main_file config = Path host (args.main a) ∧
    (∀ given, args.name a = Some given → given ≠ "" → app_name config = given) ∧
    (args.name a = None ∨ args.name a = Some "" →
     pathlib.stem (main_file config) ≠ "main" →
     app_name config = pathlib.stem (main_file config)) ∧
    (args.name a = None ∨ args.name a = Some "" →
     pathlib.stem (main_file config) = "main" →
     app_name config = pathlib.name (Path host (getcwd host))).
Proof.
  eexists. split; [apply init_run|]. simpl. split; [done|].
  unfold resolved_app_name. split; [|split].
  - intros given -> Hne. by destruct given.
  - intros Hname Hstem.
    assert (Str.truthy (args.name a) = false) as -> by (by destruct Hname as [-> | ->]).
    apply String.eqb_neq in Hstem. by rewrite Hstem.
  - intros Hname Hstem.
    assert (Str.truthy (args.name a) = false) as -> by (by destruct Hname as [-> | ->]).
    apply String.eqb_eq in Hstem. by rewrite Hstem.
Qed.

(** An explicitly supplied empty name is not used: the name is detected. *)
Lemma empty_name_is_detected :
  let a := args.mk (Some "") "app.py" None false false false None in
  ∃ config,
    __init__ linux_host a app_state = (Ok config, app_state) ∧
    app_name config = "app" ∧
    args.name a ≠ Some (app_name config).
Proof.
  eexists. split; [apply init_run|]. split; [reflexivity | discriminate].
Qed.

(* ===================================================================== *)
(** ** The assembled command *)
(* ===================================================================== *)

Lemma win32_not_darwin (host : Host) : win32 host = true → darwin host = false.
Proof.
  unfold win32, darwin. intros ->%String.eqb_eq. reflexivity.
Qed.

Lemma build_command_run (host : Host) (config : NuitkaBuildConfig) (st : State) :
  build_command host config st =
  (Ok (command_line host config (List.filter (is_directory st) common_dirs)), st).
Proof.
  unfold build_command.
  rewrite !fold_left_append.
  erewrite bind_ok; [|apply get_data_dirs_filter].
  rewrite !fold_left_append.
  unfold mret, M_ret. do 2 f_equal.
  unfold command_line, flag_list, baseline_flags, onefile_flags, console_flags,
    plugin_flags, data_flags, icon_flags, metadata_flags, bundle_flags,
    trailing_flags.
  destruct (win32 host) eqn:Hwin;
    [rewrite (win32_not_darwin host Hwin) | destruct (darwin host)];
    destruct (onefile config), (console config), (icon config) as [[|c path]|];
    cbn [andb negb Str.truthy from_option];
    rewrite <- ?app_assoc; reflexivity.
Qed.

(** C8. The argument list is assembled in the fixed order: after the
    interpreter prefix come the standalone and output-directory flags, the
    single-file flag when requested, the platform console flag, one
    plugin flag per plugin, one data flag per discovered directory (mapped
    to itself), the icon flag, the Windows metadata flags, the macOS bundle
    flags, the two trailing flags, and last the entry-point path. *)
Theorem build_command_order (host : Host) (config : NuitkaBuildConfig) (st : State) :
  ∃ data_dirs cmd,
    get_data_dirs host config st = (Ok data_dirs, st) ∧
    build_command host config st = (Ok cmd, st) ∧
    cmd = [sys_executable host; "-m"; "nuitka"] ++
          baseline_flags config ++
          onefile_flags config ++
          console_flags host config ++
          plugin_flags config ++
          data_flags data_dirs ++
          icon_flags host config ++
          metadata_flags host config ++
          bundle_flags host config ++
          trailing_flags ++
          [pathlib.str (main_file config)] ∧
    length (plugin_flags config) = length (get_plugins config) ∧
    length (data_flags data_dirs) = length data_dirs ∧
    list.last cmd = Some (pathlib.str (main_file config)).
Proof.
  exists (List.filter (is_directory st) common_dirs). eexists.
  split; [apply get_data_dirs_filter|].
  split; [apply build_command_run|].
  split; [|split; [|split]].
  - unfold command_line, flag_list. by rewrite <- !app_assoc.
  - unfold plugin_flags. by rewrite length_map.
  - unfold data_flags. by rewrite length_map.
  - unfold command_line. by rewrite !app_assoc, last_snoc.
Qed.

(** Membership of a console flag in the flag list comes from the console
    step alone: every other step produces flags of another spelling. *)
Ltac flag_elsewhere H :=
  repeat match type of H with
    | In _ (map _ _) => apply in_map_iff in H as [? [H _]]
    | In _ (if ?b then _ else _) => destruct b
    | In _ (match ?o with Some _ => _ | None => _ end) => destruct o as [[|? ?]|]
    | In _ (_ :: _) => destruct H as [H | H]
    | In _ [] => destruct H
    | _ = _ => discriminate H
    end.

Lemma console_flag_origin (host : Host) (config : NuitkaBuildConfig)
    (data_dirs : list string) (flag : string) :
  flag = "--windows-disable-console" ∨ flag = "--macos-disable-console" →
  In flag (flag_list host config data_dirs) ↔ In flag (console_flags host config).
Proof.
  intros Hflag. unfold flag_list. rewrite !in_app_iff. split; [|tauto].
  intros [H|[H|[H|[H|[H|[H|[H|[H|H]]]]]]]]; [| |done| | | | | |];
    exfalso;
    unfold baseline_flags, onefile_flags, plugin_flags, data_flags, icon_flags,
      metadata_flags, bundle_flags, trailing_flags in H;
    destruct Hflag as [-> | ->]; flag_elsewhere H.
Qed.

Lemma windows_flag_iff (host : Host) (config : NuitkaBuildConfig) :
  In "--windows-disable-console" (console_flags host config) ↔
  sys_platform host = "win32" ∧ console config = false.
Proof.
  unfold console_flags. rewrite <- (String.eqb_eq (sys_platform host)).
  fold (win32 host).
  destruct (console config), (win32 host), (darwin host); simpl;
    intuition discriminate.
Qed.

Lemma macos_flag_iff (host : Host) (config : NuitkaBuildConfig) :
  In "--macos-disable-console" (console_flags host config) ↔
  sys_platform host = "darwin" ∧ console config = false.
Proof.
  unfold console_flags. rewrite <- (String.eqb_eq (sys_platform host)).
  fold (darwin host).
  destruct (win32 host) eqn:Hwin.
  - rewrite (win32_not_darwin host Hwin).
    destruct (console config); simpl; intuition discriminate.
  - destruct (console config), (darwin host); simpl; intuition discriminate.
Qed.

(** C7. With the console not requested, the flag list holds the Windows
    console-disable flag and not the macOS one on a Windows host, the macOS
    flag and not the Windows one on a macOS host, and neither on any other
    host; no configuration on any host gets both flags. The flag list is
    the command between the interpreter prefix and the entry-point path. *)
Theorem console_flag_by_platform (host : Host) (config : NuitkaBuildConfig) (st : State) :
  ∃ data_dirs flags,
    build_command host config st =
      (Ok ([sys_executable host; "-m"; "nuitka"] ++ flags ++
           [pathlib.str (main_file config)]), st) ∧
    flags = flag_list host config data_dirs ∧
    (console config = false → sys_platform host = "win32" →
     In "--windows-disable-console" flags ∧ ¬ In "--macos-disable-console" flags) ∧
    (console config = false → sys_platform host = "darwin" →
     In "--macos-disable-console" flags ∧ ¬ In "--windows-disable-console" flags) ∧
    (console config = false →
     sys_platform host ≠ "win32" → sys_platform host ≠ "darwin" →
     ¬ In "--windows-disable-console" flags ∧ ¬ In "--macos-disable-console" flags) ∧
    ¬ (In "--windows-disable-console" flags ∧ In "--macos-disable-console" flags).
Proof.
  exists (List.filter (is_directory st) common_dirs). eexists.
  split; [apply build_command_run|]. split; [done|].
  rewrite !console_flag_origin by auto.
  rewrite windows_flag_iff, macos_flag_iff.
  intuition congruence.
Qed.

(* ===================================================================== *)
(** ** Running the build *)
(* ===================================================================== *)

Lemma removed_self p files : removed p files !! pathlib.str p = None.
Proof.
  apply map_lookup_filter_None_2. right. intros x _. simpl.
  unfold within. by rewrite String.eqb_refl.
Qed.

Lemma removed_Some p files k v : removed p files !! k = Some v → files !! k = Some v.
Proof. apply map_lookup_filter_Some_1_1. Qed.

Lemma cleaned_self p files :
  absent_or_dir files p → cleaned p files !! pathlib.str p = None.
Proof.
  intros Hp. unfold cleaned.
  destruct (files !! pathlib.str p) as [[text|]|] eqn:Hlook; [|apply removed_self|done].
  by destruct (Hp text).
Qed.

Lemma cleaned_Some p files k v : cleaned p files !! k = Some v → files !! k = Some v.
Proof.
  unfold cleaned. destruct (files !! pathlib.str p) as [[text|]|]; [done| |done].
  apply removed_Some.
Qed.

Lemma cleaned_None p files k : files !! k = None → cleaned p files !! k = None.
Proof.
  intros Hk. destruct (cleaned p files !! k) as [v|] eqn:Hv; [|done].
  apply cleaned_Some in Hv. congruence.
Qed.

Lemma cleaned_absent p files : files !! pathlib.str p = None → cleaned p files = files.
Proof. intros H. unfold cleaned. by rewrite H. Qed.

Lemma cleaned_absent_or_dir p q files :
  absent_or_dir files q → absent_or_dir (cleaned p files) q.
Proof. intros Hq text Hlook. apply cleaned_Some in Hlook. by destruct (Hq text). Qed.

(** One round of the loop of lines 102-104. *)
Lemma remove_if_exists_run (d : pathlib.PurePath) (st : State) :
  absent_or_dir (fs st) d →
  (present ← exists_ d; if (present : bool) then shutil_rmtree d else mret tt) st =
  (Ok tt, mkState (cleaned d (fs st)) (stdout st) (subprocess_calls st)).
Proof.
  intros Hd. unfold mbind, M_bind, exists_, shutil_rmtree, cleaned.
  destruct (fs st !! pathlib.str d) as [[text|]|] eqn:Hlook.
  - by destruct (Hd text).
  - rewrite bool_decide_true by eauto. by rewrite Hlook.
  - rewrite bool_decide_false by (by intros [? ?]). by destruct st.
Qed.

Lemma clean_artifacts_run (config : NuitkaBuildConfig) (st : State) :
  clean config = true →
  absent_or_dir (fs st) (output_dir config) →
  absent_or_dir (fs st) (build_dir config) →
  clean_artifacts config st =
  (Ok tt, mkState (cleaned (build_dir config) (cleaned (output_dir config) (fs st)))
                  (stdout st ++ [msg_cleaning]) (subprocess_calls st)).
Proof.
  intros Hclean Hout Hbuild. unfold clean_artifacts. rewrite Hclean.
  erewrite bind_ok; [|reflexivity]. simpl.
  erewrite bind_ok; [|by apply remove_if_exists_run].
  erewrite bind_ok; [|by apply remove_if_exists_run, cleaned_absent_or_dir].
  reflexivity.
Qed.

Lemma clean_artifacts_skip (config : NuitkaBuildConfig) (st : State) :
  clean config = false → clean_artifacts config st = (Ok tt, st).
Proof. intros Hclean. unfold clean_artifacts. by rewrite Hclean. Qed.

Lemma execute_run (host : Host) (config : NuitkaBuildConfig) (cmd : list string)
    (st : State) :
  execute host config cmd st =
  match spawn host cmd (fs st) with
  | Exited rc files =>
      if (rc =? 0)%Z
      then (Ok tt, mkState files (stdout st ++ banner config cmd ++ [msg_success config])
                           (subprocess_calls st ++ [cmd]))
      else (Raise (SystemExit rc),
            mkState files (stdout st ++ banner config cmd ++ [msg_failed rc])
                    (subprocess_calls st ++ [cmd]))
  | NoSuchExecutable =>
      (Raise (SystemExit 1),
       mkState (fs st) (stdout st ++ banner config cmd ++ [msg_not_found])
               (subprocess_calls st ++ [cmd]))
  end.
Proof.
  unfold execute, try_except, subprocess_run, print, sys_exit, raise, mbind, M_bind.
  simpl. unfold banner.
  destruct (spawn host cmd (fs st)) as [rc files|]; [destruct (rc =? 0)%Z|];
    simpl; by rewrite <- !app_assoc.
Qed.

Lemma last_after_banner (out : list string) (config : NuitkaBuildConfig)
    (cmd : list string) (line : string) :
  list.last (out ++ banner config cmd ++ [line]) = Some line.
Proof. by rewrite app_assoc, last_snoc. Qed.

Lemma run_build_missing (host : Host) (config : NuitkaBuildConfig) (st : State) :
  fs st !! pathlib.str (main_file config) = None →
  run_build host config st =
  (Raise (SystemExit 1),
   mkState (fs st) (stdout st ++ [msg_main_not_found config]) (subprocess_calls st)).
Proof.
  intros Hmain. unfold run_build.
  erewrite bind_ok; [|reflexivity]. rewrite Hmain.
  rewrite bool_decide_false by (by intros [? ?]). reflexivity.
Qed.

Lemma run_build_present (host : Host) (config : NuitkaBuildConfig) (st : State) :
  is_Some (fs st !! pathlib.str (main_file config)) →
  run_build host config st =
  (clean_artifacts config ;; cmd ← build_command host config; execute host config cmd) st.
Proof.
  intros Hmain. unfold run_build.
  erewrite bind_ok; [|reflexivity].
  rewrite bool_decide_true by done. reflexivity.
Qed.

(** C6. When the entry-point file does not exist, [run_build] prints the
    error, exits with code 1, starts no child process and leaves every file
    and directory as it was, whatever the [clean] flag says: the check comes
    before the cleaning step. The tool as a whole runs [run_build] on the
    configuration that [__init__] resolves without changing the state. *)
Theorem missing_entry_point_exits (host : Host) (config : NuitkaBuildConfig) (st : State) :
  fs st !! pathlib.str (main_file config) = None →
  ∃ st',
    run_build host config st = (Raise (SystemExit 1), st') ∧
    exit_status (run_build host config st).1 = 1%Z ∧
    subprocess_calls st' = subprocess_calls st ∧
    fs st' = fs st ∧
    stdout st' = stdout st ++ [msg_main_not_found config] ∧
    (∀ a, __init__ host a st = (Ok config, st) →
          main host a st = (Raise (SystemExit 1), st')).
Proof.
  intros Hmain. eexists. split; [by apply run_build_missing|].
  rewrite run_build_missing by done. repeat split.
  intros a Hinit. unfold main. erewrite bind_ok by exact Hinit.
  by apply run_build_missing.
Qed.

Lemma missing_entry_point_exits_witness :
  ∃ config st',
    clean config = true ∧
    main linux_host clean_args dist_state = (Raise (SystemExit 1), st') ∧
    fs st' = fs dist_state ∧ subprocess_calls st' = [].
Proof.
  pose (config := mkConfig (Path linux_host "missing.py") "missing" None false
                    false true "pyside6" (Path linux_host "dist")
                    (Path linux_host "build")).
  destruct (missing_entry_point_exits linux_host config dist_state)
    as [st' (Hrun & _ & Hcalls & Hfs & _ & Hmain)]; [vm_compute; reflexivity|].
  exists config, st'. split; [reflexivity|]. split; [|by split].
  apply Hmain. vm_compute. reflexivity.
Defined.

(** C9, where the code departs from it. With Nuitka not installed the
    interpreter starts, finds no module [nuitka] and exits with status 1;
    the script then prints the failure message for exit code 1 and exits
    with status 1. The installation hint of line 177 is not printed: it
    is reserved for [FileNotFoundError], which [subprocess.run] raises only
    when the first element of the command, [sys.executable], cannot be
    started. *)
Theorem missing_nuitka_prints_failure_not_hint :
  ∃ cmd st',
    build_command no_nuitka_host plain_config app_state = (Ok cmd, app_state) ∧
    take 3 cmd = [sys_executable no_nuitka_host; "-m"; "nuitka"] ∧
    spawn no_nuitka_host cmd (fs app_state) = Exited 1 (fs app_state) ∧
    run_build no_nuitka_host plain_config app_state = (Raise (SystemExit 1), st') ∧
    exit_status (run_build no_nuitka_host plain_config app_state).1 = 1%Z ∧
    subprocess_calls st' = [cmd] ∧
    list.last (stdout st') = Some (msg_failed 1) ∧
    msg_not_found ∉ stdout st'.
Proof.
  eexists _, _. split; [apply build_command_run|].
  split; [reflexivity|]. split; [reflexivity|].
  split; [vm_compute; reflexivity|].
  split; [vm_compute; reflexivity|].
  split; [vm_compute; reflexivity|].
  split; [vm_compute; reflexivity|].
  vm_compute. intros Hin.
  repeat (apply elem_of_cons in Hin as [Hin | Hin]; [discriminate Hin|]).
  by apply elem_of_nil in Hin.
Qed.

Lemma absent_absent_or_dir files p :
  files !! pathlib.str p = None → absent_or_dir files p.
Proof. intros H text. by rewrite H. Qed.

(** C10, as the code has it. With [clean] set, the entry point present, and
    the output and build paths each either absent or a directory, the
    cleaning step ends normally and neither path exists afterwards;
    [run_build] goes on from that state. Absence is no error: when both
    are absent the files are untouched, and cleaning again changes
    nothing. *)
Theorem clean_step_removes_directories (host : Host) (config : NuitkaBuildConfig)
    (st : State) :
  clean config = true →
  is_Some (fs st !! pathlib.str (main_file config)) →
  absent_or_dir (fs st) (output_dir config) →
  absent_or_dir (fs st) (build_dir config) →
  ∃ st',
    clean_artifacts config st = (Ok tt, st') ∧
    run_build host config st =
      (cmd ← build_command host config; execute host config cmd) st' ∧
    exists_ (output_dir config) st' = (Ok false, st') ∧
    exists_ (build_dir config) st' = (Ok false, st') ∧
    (fs st !! pathlib.str (output_dir config) = None →
     fs st !! pathlib.str (build_dir config) = None →
     fs st' = fs st) ∧
    (∃ st'', clean_artifacts config st' = (Ok tt, st'') ∧ fs st'' = fs st').
Proof.
  intros Hclean Hmain Hout Hbuild.
  set (files' := cleaned (build_dir config) (cleaned (output_dir config) (fs st))).
  assert (files' !! pathlib.str (output_dir config) = None) as Hout'.
  { by apply cleaned_None, cleaned_self. }
  assert (files' !! pathlib.str (build_dir config) = None) as Hbuild'.
  { by apply cleaned_self, cleaned_absent_or_dir. }
  exists (mkState files' (stdout st ++ [msg_cleaning]) (subprocess_calls st)).
  split; [by apply clean_artifacts_run|].
  split; [|split; [|split; [|split]]].
  - rewrite run_build_present by done.
    by erewrite bind_ok by (by apply clean_artifacts_run).
  - unfold exists_. simpl. rewrite Hout'.
    by rewrite bool_decide_false by (by intros [? ?]).
  - unfold exists_. simpl. rewrite Hbuild'.
    by rewrite bool_decide_false by (by intros [? ?]).
  - intros Ho Hb. simpl. unfold files'.
    rewrite (cleaned_absent (output_dir config)) by done.
    by rewrite cleaned_absent.
  - eexists. split.
    + apply clean_artifacts_run; [done | | ]; by apply absent_absent_or_dir.
    + simpl. rewrite (cleaned_absent (output_dir config)) by done.
      by rewrite cleaned_absent.
Qed.

Lemma clean_step_removes_directories_witness :
  ∃ st', clean_artifacts app_config built_state = (Ok tt, st') ∧
         exists_ (output_dir app_config) st' = (Ok false, st') ∧
         exists_ (build_dir app_config) st' = (Ok false, st').
Proof.
  destruct (clean_step_removes_directories linux_host app_config built_state)
    as (st' & Hclean & _ & Hout & Hbuild & _).
  - reflexivity.
  - vm_compute. eauto.
  - intros text. vm_compute. discriminate.
  - intros text. vm_compute. discriminate.
  - exists st'. exact (conj Hclean (conj Hout Hbuild)).
Defined.

(** With a regular file in the place of the output directory, the cleaning
    step raises and the path is still there. *)
Lemma clean_step_raises_on_file :
  clean app_config = true ∧
  exists_ (main_file app_config) blocked_state = (Ok true, blocked_state) ∧
  (clean_artifacts app_config blocked_state).1 = Raise NotADirectoryError ∧
  (exists_ (output_dir app_config) (clean_artifacts app_config blocked_state).2).1
    = Ok true ∧
  (run_build linux_host app_config blocked_state).1 = Raise NotADirectoryError.
Proof. repeat split; vm_compute; reflexivity. Qed.

(* ===================================================================== *)
(** ** End to end: a tkinter application on Windows *)
(* ===================================================================== *)

Lemma detect_tkinter (content : string) :
  Str.contains "tkinter" content = true →
  Forall (λ token, Str.contains token content = false) earlier_tokens →
  detect_by_priority (Some content) = "tkinter".
Proof.
  intros Htk Hearlier. unfold earlier_tokens in Hearlier.
  repeat (apply Forall_cons in Hearlier as [? Hearlier]).
  unfold detect_by_priority, first_match, framework_tokens, entry_matches. simpl.
  repeat match goal with
         | H : Str.contains _ content = _ |- _ => rewrite H; clear H
         end.
  reflexivity.
Qed.

Lemma Path_win32 (host : Host) (s : string) :
  sys_platform host = "win32" → Path host s = pathlib.parse pathlib.Windows s.
Proof. intros H. unfold Path, flavour. by rewrite H. Qed.

Lemma init_tkinter (host : Host) (st : State) (content : string) :
  sys_platform host = "win32" →
  fs st !! "app.py" = Some (File (Some content)) →
  Str.contains "tkinter" content = true →
  Forall (λ token, Str.contains token content = false) earlier_tokens →
  __init__ host app_args st = (Ok tkinter_config, st).
Proof.
  intros Hplat Hfile Htk Hearlier. rewrite init_run.
  unfold resolved_app_name, resolved_framework, text_of.
  rewrite !(Path_win32 host) by done.
  change (pathlib.str (pathlib.parse pathlib.Windows (args.main app_args)))
    with "app.py".
  rewrite Hfile, (detect_tkinter content) by done.
  reflexivity.
Qed.

Lemma command_tkinter (host : Host) (data_dirs : list string) :
  sys_platform host = "win32" →
  command_line host tkinter_config data_dirs =
  [sys_executable host; "-m"; "nuitka"; "--standalone"; "--output-dir=dist";
   "--windows-disable-console"; "--enable-plugin=tk-inter"] ++
  data_flags data_dirs ++
  ["--product-name=app"; "--file-description=app"; "--file-version=1.0.0.0";
   "--product-version=1.0.0.0"; "--assume-yes-for-downloads"; "--remove-output";
   "app.py"].
Proof.
  intros Hplat.
  assert (win32 host = true) as Hwin by (unfold win32; by rewrite Hplat).
  unfold command_line, flag_list, console_flags, icon_flags, metadata_flags,
    bundle_flags.
  rewrite (win32_not_darwin host Hwin), Hwin.
  change (plugin_flags tkinter_config) with ["--enable-plugin=tk-inter"].
  rewrite <- !app_assoc. reflexivity.
Qed.

(** C1, as the code has it. For the entry file [app.py] whose text contains
    [import tkinter] and no token of higher priority, with no other option,
    on a Windows host: the framework resolves to tkinter, whose plugin list
    is [tk-inter]; the application name is [app]; and the command holds
    the standalone flag, the output-directory flag, the Windows
    console-disable flag, the plugin flag for [tk-inter], the data flags,
    the product metadata naming [app], the two trailing flags and [app.py]
    last. That command is the one handed to the child process. *)
Theorem tkinter_app_on_windows (host : Host) (st : State) (content : string) :
  sys_platform host = "win32" →
  fs st !! "app.py" = Some (File (Some content)) →
  Str.contains "import tkinter" content = true →
  Forall (λ token, Str.contains token content = false) earlier_tokens →
  ∃ config data_dirs cmd,
    __init__ host app_args st = (Ok config, st) ∧
    framework config = "tkinter" ∧
    get_plugins config = ["tk-inter"] ∧
    app_name config = "app" ∧
    get_data_dirs host config st = (Ok data_dirs, st) ∧
    build_command host config st = (Ok cmd, st) ∧
    cmd = [sys_executable host; "-m"; "nuitka"; "--standalone"; "--output-dir=dist";
           "--windows-disable-console"; "--enable-plugin=tk-inter"] ++
          data_flags data_dirs ++
          ["--product-name=app"; "--file-description=app";
           "--file-version=1.0.0.0"; "--product-version=1.0.0.0";
           "--assume-yes-for-downloads"; "--remove-output"; "app.py"] ∧
    subprocess_calls (main host app_args st).2 = subprocess_calls st ++ [cmd].
Proof.
  intros Hplat Hfile Himport Hearlier.
  apply (contains_weaken "import " "tkinter") in Himport.
  exists tkinter_config, (List.filter (is_directory st) common_dirs).
  eexists.
  split; [by apply (init_tkinter host st content)|].
  split; [done|]. split; [done|]. split; [done|].
  split; [apply get_data_dirs_filter|].
  split; [apply build_command_run|].
  split; [by apply command_tkinter|].
  unfold main. erewrite bind_ok by (by apply (init_tkinter host st content)).
  rewrite run_build_present by (change (is_Some (fs st !! "app.py")); eauto).
  erewrite bind_ok by (by apply clean_artifacts_skip).
  erewrite bind_ok by apply build_command_run.
  rewrite execute_run.
  by destruct (spawn host _ (fs st)) as [rc files|]; [destruct (rc =? 0)%Z|].
Qed.

Lemma tkinter_app_on_windows_witness :
  ∃ config cmd,
    __init__ windows_host app_args app_state = (Ok config, app_state) ∧
    get_plugins config = ["tk-inter"] ∧
    build_command windows_host config app_state = (Ok cmd, app_state) ∧
    list.last cmd = Some "app.py".
Proof.
  destruct (tkinter_app_on_windows windows_host app_state "import tkinter")
    as (config & data_dirs & cmd & Hinit & _ & Hplug & _ & _ & Hcmd & Heq & _).
  - reflexivity.
  - vm_compute. reflexivity.
  - vm_compute. reflexivity.
  - unfold earlier_tokens. repeat constructor.
  - exists config, cmd. split; [exact Hinit|]. split; [exact Hplug|].
    split; [exact Hcmd|]. rewrite Heq.
    rewrite !last_app. reflexivity.
Defined.

(** The plugin list of tkinter is not empty, and a text holding a
    higher-priority token next to [import tkinter] resolves elsewhere. *)
Lemma tkinter_plugins_not_empty :
  __init__ windows_host app_args app_state = (Ok tkinter_config, app_state) ∧
  framework tkinter_config = "tkinter" ∧
  get_plugins tkinter_config = ["tk-inter"] ∧
  get_plugins tkinter_config ≠ [] ∧
  (build_command windows_host tkinter_config app_state).1 =
    Ok ["C:\Python\python.exe"; "-m"; "nuitka"; "--standalone"; "--output-dir=dist";
        "--windows-disable-console"; "--enable-plugin=tk-inter";
        "--product-name=app"; "--file-description=app"; "--file-version=1.0.0.0";
        "--product-version=1.0.0.0"; "--assume-yes-for-downloads";
        "--remove-output"; "app.py"] ∧
  Str.contains "import tkinter" "import tkinter  # was: import PySide6" = true ∧
  (framework <$> (match (__init__ windows_host app_args mixed_state).1 with
                  | Ok config => Some config
                  | Raise _ => None
                  end)) = Some "pyside6".
Proof.
  split; [vm_compute; reflexivity|].
  split; [reflexivity|].
  split; [vm_compute; reflexivity|].
  split; [vm_compute; discriminate|].
  split; [vm_compute; reflexivity|].
  split; vm_compute; reflexivity.
Qed.

(* ===================================================================== *)
(** ** More on resolving the configuration *)
(* ===================================================================== *)

Lemma Path_str_dist (host : Host) : pathlib.str (Path host "dist") = "dist".
Proof.
  unfold Path, flavour. by destruct (String.eqb (sys_platform host) "win32").
Qed.

Lemma Path_str_build (host : Host) : pathlib.str (Path host "build") = "build".
Proof.
  unfold Path, flavour. by destruct (String.eqb (sys_platform host) "win32").
Qed.

(** X1. Building the configuration cannot fail and changes nothing: whatever
    the entry file is (missing, unreadable, a directory), [__init__] returns
    a configuration in the same state; the options are copied as given, the
    output and build directories are [dist] and [build], and [main] runs
    [run_build] on that configuration. *)
Theorem init_returns_and_keeps_state (host : Host) (a : args.Namespace) (st : State) :
  ∃ config,
    __init__ host a st = (Ok config, st) ∧
    main_file config = Path host (args.main a) ∧
    icon config = args.icon a ∧
    console config = args.console a ∧
    onefile config = args.onefile a ∧
    clean config = args.clean a ∧
    pathlib.str (output_dir config) = "dist" ∧
    pathlib.str (build_dir config) = "build" ∧
    main host a st = run_build host config st.
Proof.
  eexists. split; [apply init_run|]. simpl.
  repeat (split; [reflexivity|]).
  split; [apply Path_str_dist|]. split; [apply Path_str_build|].
  unfold main. by erewrite bind_ok by apply init_run.
Qed.

Lemma lower_choice (f : string) : f ∈ framework_choices → Str.lower f = f.
Proof.
  unfold framework_choices. intros Hf.
  repeat (apply elem_of_cons in Hf as [-> | Hf]; [reflexivity|]).
  by apply elem_of_nil in Hf.
Qed.

(** X2. A framework given explicitly is taken in lower case and the entry
    file plays no part: the resolved framework is the same in every state.
    For the values the parser admits, lower-casing changes nothing. *)
Theorem explicit_framework_wins (host : Host) (a : args.Namespace) (st : State)
    (f : string) :
  args.framework a = Some f → f ≠ "" →
  ∃ config,
    __init__ host a st = (Ok config, st) ∧
    framework config = Str.lower f ∧
    (f ∈ framework_choices → framework config = f) ∧
    (∀ st', ∃ config', __init__ host a st' = (Ok config', st') ∧
                       framework config' = framework config).
Proof.
  intros Hf Hne.
  assert (∀ s, resolved_framework host a s = Str.lower f) as Hres.
  { intros s. unfold resolved_framework. rewrite Hf. by destruct f. }
  eexists. split; [apply init_run|]. simpl. split; [apply Hres|].
  split.
  - intros Hin. by rewrite Hres, lower_choice.
  - intros st'. eexists. split; [apply init_run|]. simpl. by rewrite !Hres.
Qed.

Lemma explicit_framework_wins_witness :
  ∃ config, __init__ linux_host qt_args app_state = (Ok config, app_state) ∧
            framework config = "qt".
Proof.
  destruct (explicit_framework_wins linux_host qt_args app_state "qt")
    as (config & Hinit & _ & Hfw & _); [reflexivity | discriminate |].
  exists config. split; [exact Hinit|]. apply Hfw.
  unfold framework_choices. do 3 apply list_elem_of_further. apply list_elem_of_here.
Defined.

Lemma detect_by_priority_detectable (text : option string) :
  detect_by_priority text ∈ detectable_frameworks.
Proof.
  unfold detectable_frameworks.
  destruct text as [content|]; [|by left].
  unfold detect_by_priority, first_match, framework_tokens, entry_matches. simpl.
  repeat (match goal with
          | |- context [Str.contains ?t content] =>
              destruct (Str.contains t content); simpl
          end);
    repeat first [apply list_elem_of_here | apply list_elem_of_further].
Qed.

Lemma table_entry (fw : string) :
  fw ∈ framework_choices →
  fw ∈ dom FRAMEWORK_PLUGINS ∧
  (default [] (FRAMEWORK_PLUGINS !! fw) = [] ↔ fw = "flet").
Proof.
  unfold framework_choices. intros Hfw.
  repeat (apply elem_of_cons in Hfw as [-> | Hfw];
          [split; [apply elem_of_dom; vm_compute; eauto
                  |split; intros H; vm_compute in H; (discriminate || reflexivity)]|]).
  by apply elem_of_nil in Hfw.
Qed.

Lemma detectable_choice (fw : string) :
  fw ∈ detectable_frameworks → fw ∈ framework_choices.
Proof.
  unfold detectable_frameworks, framework_choices. intros Hfw.
  repeat (apply elem_of_cons in Hfw as [-> | Hfw];
          [repeat first [apply list_elem_of_here | apply list_elem_of_further]|]).
  by apply elem_of_nil in Hfw.
Qed.

(** X3. Every framework the tool can resolve has an entry in the plugin
    table: with the framework left out, or one of the parser's choices, the
    resolved framework is a key of [FRAMEWORK_PLUGINS], so the default of
    [get_plugins] is never used; and the plugin list is empty exactly for
    [flet]. *)
Theorem resolved_framework_in_table (host : Host) (a : args.Namespace) (st : State) :
  Str.truthy (args.framework a) = false ∨
  (∃ f, args.framework a = Some f ∧ f ∈ framework_choices) →
  ∃ config,
    __init__ host a st = (Ok config, st) ∧
    framework config ∈ framework_choices ∧
    framework config ∈ dom FRAMEWORK_PLUGINS ∧
    (get_plugins config = [] ↔ framework config = "flet").
Proof.
  intros Hfw. eexists. split; [apply init_run|]. simpl.
  assert (resolved_framework host a st ∈ framework_choices) as Hin.
  { unfold resolved_framework. destruct Hfw as [-> | (f & Hf & Hin)].
    - apply detectable_choice, detect_by_priority_detectable.
    - rewrite Hf. destruct f as [|c f].
      + apply detectable_choice, detect_by_priority_detectable.
      + change (Str.lower (String c f) ∈ framework_choices).
        by rewrite lower_choice. }
  split; [done|]. by apply table_entry.
Qed.

Lemma resolved_framework_in_table_witness :
  ∃ config, __init__ linux_host qt_args app_state = (Ok config, app_state) ∧
            framework config ∈ dom FRAMEWORK_PLUGINS.
Proof.
  destruct (resolved_framework_in_table linux_host qt_args app_state)
    as (config & Hinit & _ & Hdom & _).
  - right. exists "qt". split; [reflexivity|].
    unfold framework_choices. do 3 apply list_elem_of_further. apply list_elem_of_here.
  - exists config. exact (conj Hinit Hdom).
Defined.

Lemma find_split {A} (f : A → bool) (l : list A) (x : A) :
  List.find f l = Some x →
  ∃ before after, l = before ++ x :: after ∧ f x = true ∧
                  Forall (λ y, f y = false) before.
Proof.
  induction l as [|y l IH]; simpl; [done|].
  destruct (f y) eqn:Hy.
  - intros [= ->]. by exists [], l.
  - intros (before & after & -> & Hx & Hbefore)%IH.
    exists (y :: before), after. repeat split; [done|]. by constructor.
Qed.

(** X4. A framework other than the default is never answered without
    evidence: the entry file was read, one of the framework's tokens occurs
    in its text, and no token of an earlier table entry does. *)
Theorem detected_framework_is_backed (p : pathlib.PurePath) (st : State) (fw : string) :
  (_detect_framework p st).1 = Ok fw →
  fw ≠ default_framework →
  ∃ content before tokens after token,
    text_of st p = Some content ∧
    framework_tokens = before ++ (tokens, fw) :: after ∧
    Forall (λ entry, entry_matches content entry = false) before ∧
    token ∈ tokens ∧
    Str.contains token content = true.
Proof.
  rewrite detect_framework_run. simpl. intros [= <-] Hne.
  destruct (text_of st p) as [content|]; [|done].
  change (detect_by_priority (Some content))
    with (default default_framework
            (snd <$> List.find (entry_matches content) framework_tokens)) in *.
  destruct (List.find (entry_matches content) framework_tokens)
    as [[tokens fw]|] eqn:Hfind; [|done].
  apply find_split in Hfind as (before & after & Htable & Hentry & Hbefore).
  apply existsb_exists in Hentry as (token & Hin%list_elem_of_In & Htoken).
  by exists content, before, tokens, after, token.
Qed.

Lemma detected_framework_is_backed_witness :
  ∃ token, Str.contains token "import tkinter" = true.
Proof.
  destruct (detected_framework_is_backed (Path linux_host "app.py") app_state "tkinter")
    as (content & before & tokens & after & token & Htext & _ & _ & _ & Htoken).
  - vm_compute. reflexivity.
  - discriminate.
  - exists token. injection Htext as <-. exact Htoken.
Defined.

(** X5. A text that mentions customtkinter, or merely holds the letters
    [ctk], is never classified as plain tkinter or Flet, although the
    tkinter token is a part of [customtkinter]. *)
Theorem customtkinter_is_not_plain_tkinter (p : pathlib.PurePath) (st : State)
    (content : string) :
  text_of st p = Some content →
  Str.contains "customtkinter" content = true ∨ Str.contains "ctk" content = true →
  (Str.contains "customtkinter" content = true → Str.contains "tkinter" content = true) ∧
  ∃ fw, _detect_framework p st = (Ok fw, st) ∧
        fw ∈ ["pyside6"; "pyqt6"; "pyqt5"; "ctk"].
Proof.
  intros Htext Hctk. split; [apply (contains_weaken "custom" "tkinter")|].
  eexists. split; [apply detect_framework_run|]. rewrite Htext.
  unfold detect_by_priority, first_match, framework_tokens, entry_matches. simpl.
  destruct Hctk as [H | H]; rewrite H;
    repeat (match goal with
            | |- context [Str.contains ?t content] =>
                destruct (Str.contains t content); simpl
            end);
    repeat first [apply list_elem_of_here | apply list_elem_of_further].
Qed.

Lemma customtkinter_is_not_plain_tkinter_witness :
  _detect_framework (Path linux_host "app.py") ctk_state = (Ok "ctk", ctk_state).
Proof.
  destruct (customtkinter_is_not_plain_tkinter (Path linux_host "app.py") ctk_state
              "import customtkinter as ui") as (_ & fw & Hrun & _).
  - reflexivity.
  - left. reflexivity.
  - rewrite Hrun. vm_compute in Hrun. injection Hrun as <-. reflexivity.
Defined.

(* ===================================================================== *)
(** ** More on the assembled command *)
(* ===================================================================== *)

(** Splits the membership of a flag in the flag list into one goal per flag
    the steps can produce, and runs [tac] on each. *)
Ltac each_flag H tac :=
  repeat match type of H with
    | _ ∨ _ => destruct H as [H | H]
    | In _ (_ ++ _) => apply in_app_iff in H
    | In _ (map _ _) => apply in_map_iff in H as [? [H _]]
    | In _ (if ?b then _ else _) => destruct b eqn:?
    | In _ (match ?o with Some _ => _ | None => _ end) => destruct o as [[|? ?]|]
    | In _ (_ :: _) => destruct H as [H | H]
    | In _ [] => destruct H
    end;
  try (subst; tac).

Ltac unfold_steps H :=
  unfold flag_list, baseline_flags, onefile_flags, console_flags, plugin_flags,
    data_flags, icon_flags, metadata_flags, bundle_flags, trailing_flags in H.

Ltac host_or_absurd Hs :=
  first [ apply String.eqb_eq; eassumption
        | vm_compute in Hs; discriminate Hs ].

(** X6. Platform-specific flags follow the host: a flag spelled [--macos-...]
    occurs in the flag list only on a macOS host, and a flag spelled
    [--windows-...], [--product-...] or [--file-...] only on a Windows
    host; on every other host the list holds none of them. *)
Theorem platform_flags_follow_host (host : Host) (config : NuitkaBuildConfig) (st : State) :
  ∃ data_dirs flags,
    build_command host config st =
      (Ok ([sys_executable host; "-m"; "nuitka"] ++ flags ++
           [pathlib.str (main_file config)]), st) ∧
    flags = flag_list host config data_dirs ∧
    ∀ flag, In flag flags →
      (Str.startswith "--macos-" flag = true → sys_platform host = "darwin") ∧
      (Str.startswith "--windows-" flag = true ∨
       Str.startswith "--product-" flag = true ∨
       Str.startswith "--file-" flag = true → sys_platform host = "win32").
Proof.
  exists (List.filter (is_directory st) common_dirs). eexists.
  split; [apply build_command_run|]. split; [done|].
  intros flag Hin. unfold_steps Hin. unfold win32, darwin in Hin.
  each_flag Hin ltac:(split; [intros Hs | intros [Hs | [Hs | Hs]]]; host_or_absurd Hs).
Qed.

(** X7. On a host that is neither Windows nor macOS the icon, the console
    option and the application name have no effect: two configurations
    that agree on entry file, single-file mode, framework and output
    directory get the same command, which holds only the baseline flags,
    the single-file flag, the plugin and data flags and the trailing
    flags. *)
Theorem other_hosts_ignore_icon_console_name (host : Host)
    (config config' : NuitkaBuildConfig) (st : State) :
  sys_platform host ≠ "win32" → sys_platform host ≠ "darwin" →
  main_file config' = main_file config →
  onefile config' = onefile config →
  framework config' = framework config →
  output_dir config' = output_dir config →
  build_command host config' st = build_command host config st ∧
  ∃ data_dirs,
    get_data_dirs host config st = (Ok data_dirs, st) ∧
    build_command host config st =
      (Ok ([sys_executable host; "-m"; "nuitka"; "--standalone";
            "--output-dir=" +:+ pathlib.str (output_dir config)] ++
           onefile_flags config ++ plugin_flags config ++ data_flags data_dirs ++
           ["--assume-yes-for-downloads"; "--remove-output";
            pathlib.str (main_file config)]), st).
Proof.
  intros Hwin%String.eqb_neq Hmac%String.eqb_neq Hmain Honefile Hfw Hout.
  assert (∀ c, command_line host c (List.filter (is_directory st) common_dirs) =
               [sys_executable host; "-m"; "nuitka"; "--standalone";
                "--output-dir=" +:+ pathlib.str (output_dir c)] ++
               onefile_flags c ++ plugin_flags c ++
               data_flags (List.filter (is_directory st) common_dirs) ++
               ["--assume-yes-for-downloads"; "--remove-output";
                pathlib.str (main_file c)]) as Hcmd.
  { intros c. unfold command_line, flag_list, baseline_flags, console_flags,
      icon_flags, metadata_flags, bundle_flags, trailing_flags, win32, darwin.
    rewrite Hwin, Hmac.
    destruct (console c), (icon c) as [[|? ?]|];
      cbn [app]; rewrite <- ?app_assoc; reflexivity. }
  split.
  - rewrite !build_command_run, !Hcmd.
    unfold onefile_flags, plugin_flags, get_plugins.
    by rewrite Hmain, Honefile, Hfw, Hout.
  - eexists. split; [apply get_data_dirs_filter|].
    by rewrite build_command_run, Hcmd.
Qed.

(** X8. Every command asks for a standalone build, also in single-file
    mode; the single-file flag is there exactly when requested. *)
Theorem standalone_always_onefile_on_request (host : Host) (config : NuitkaBuildConfig)
    (st : State) :
  ∃ data_dirs flags,
    build_command host config st =
      (Ok ([sys_executable host; "-m"; "nuitka"] ++ flags ++
           [pathlib.str (main_file config)]), st) ∧
    flags = flag_list host config data_dirs ∧
    In "--standalone" flags ∧
    (In "--onefile" flags ↔ onefile config = true).
Proof.
  exists (List.filter (is_directory st) common_dirs). eexists.
  split; [apply build_command_run|]. split; [done|].
  split; [by left|]. split.
  - intros Hin. unfold_steps Hin.
    each_flag Hin ltac:(first [discriminate | reflexivity]).
  - intros Hone. unfold flag_list, onefile_flags. rewrite Hone.
    apply in_app_iff. right. by left.
Qed.

(** X9. The command looks at the file system only through the seven
    candidate directory names: two states that agree on which of them are
    directories give the same command, and assembling it changes nothing. *)
Theorem command_reads_only_candidate_dirs (host : Host) (config : NuitkaBuildConfig)
    (st st' : State) :
  (∀ d, d ∈ common_dirs → is_directory st d = is_directory st' d) →
  (build_command host config st).1 = (build_command host config st').1 ∧
  (build_command host config st).2 = st.
Proof.
  intros Hagree. rewrite !build_command_run. cbn [fst snd]. split; [|done].
  do 2 f_equal. apply filter_ext_in. intros d Hd%list_elem_of_In. by apply Hagree.
Qed.

(** X10. Whatever the framework string, at most one plugin is enabled, and
    it is one of the four plugin names of the table. *)
Theorem at_most_one_plugin (config : NuitkaBuildConfig) :
  (length (get_plugins config) ≤ 1)%nat ∧
  (length (plugin_flags config) ≤ 1)%nat ∧
  ∀ plugin, plugin ∈ get_plugins config → plugin ∈ known_plugins.
Proof.
  unfold plugin_flags. rewrite length_map.
  assert (get_plugins config = [] ∨ ∃ plugin, get_plugins config = [plugin] ∧
                                              plugin ∈ known_plugins) as Hcases.
  { unfold get_plugins.
    destruct (FRAMEWORK_PLUGINS !! framework config) as [plugins|] eqn:Hlook;
      [|by left].
    apply elem_of_list_to_map_2 in Hlook.
    repeat (apply elem_of_cons in Hlook as [[= _ ->] | Hlook];
            [first [ by left
                   | right; eexists; split; [reflexivity|];
                     unfold known_plugins;
                     repeat first [apply list_elem_of_here | apply list_elem_of_further] ]|]).
    by apply elem_of_nil in Hlook. }
  destruct Hcases as [-> | (plugin & -> & Hknown)]; simpl.
  - repeat split; [lia | lia |]. by intros plugin ?%elem_of_nil.
  - repeat split; [lia | lia |]. by intros ? ->%list_elem_of_singleton.
Qed.

(** X11. An icon flag is in the flag list exactly when a non-empty icon
    path was given and the host is Windows (ICO flag) or macOS (app-icon
    flag); an empty icon path counts as none, and other hosts get no icon
    flag. *)
Theorem icon_flag_iff (host : Host) (config : NuitkaBuildConfig) (st : State)
    (path : string) :
  ∃ data_dirs flags,
    build_command host config st =
      (Ok ([sys_executable host; "-m"; "nuitka"] ++ flags ++
           [pathlib.str (main_file config)]), st) ∧
    flags = flag_list host config data_dirs ∧
    (In ("--windows-icon-from-ico=" +:+ path) flags ↔
     sys_platform host = "win32" ∧ icon config = Some path ∧ path ≠ "") ∧
    (In ("--macos-app-icon=" +:+ path) flags ↔
     sys_platform host = "darwin" ∧ icon config = Some path ∧ path ≠ "").
Proof.
  exists (List.filter (is_directory st) common_dirs). eexists.
  split; [apply build_command_run|]. split; [done|].
  assert (∀ flag, flag = "--windows-icon-from-ico=" +:+ path ∨
                  flag = "--macos-app-icon=" +:+ path →
          In flag (flag_list host config (List.filter (is_directory st) common_dirs)) ↔
          In flag (icon_flags host config)) as Horigin.
  { intros flag Hflag. unfold flag_list. rewrite !in_app_iff. split; [|tauto].
    remember (icon_flags host config) as from_icon.
    intros Hin.
    unfold baseline_flags, onefile_flags, console_flags, plugin_flags, data_flags,
      metadata_flags, bundle_flags, trailing_flags in Hin.
    destruct Hflag as [-> | ->];
      each_flag Hin ltac:(first [discriminate | assumption]). }
  rewrite !Horigin by auto. unfold icon_flags.
  rewrite <- !(String.eqb_eq (sys_platform host)). fold (win32 host) (darwin host).
  destruct (win32 host) eqn:Hwin; [rewrite (win32_not_darwin host Hwin)|];
    destruct (icon config) as [[|c given]|]; try destruct (darwin host); simpl;
    split; split;
    try (intros [H | []]; first [discriminate H | apply (inj _) in H as <-]);
    try (intros (? & [= <-] & ?));
    try done; auto.
Qed.

(* ===================================================================== *)
(** ** More on running the build *)
(* ===================================================================== *)

Lemma removed_lookup p files k :
  removed p files !! k = if within p k then None else files !! k.
Proof.
  unfold removed. destruct (within p k) eqn:Hk.
  - apply map_lookup_filter_None_2. right. intros x _. simpl. by rewrite Hk.
  - destruct (files !! k) as [x|] eqn:Hlook.
    + by apply map_lookup_filter_Some_2.
    + apply map_lookup_filter_None_2. by left.
Qed.

Lemma within_self p : within p (pathlib.str p) = true.
Proof. unfold within. by rewrite String.eqb_refl. Qed.

(** One round of the cleaning loop, whatever the path names. *)
Lemma remove_if_exists_effect (d : pathlib.PurePath) (st : State) :
  ∃ r files',
    (present ← exists_ d; if (present : bool) then shutil_rmtree d else mret tt) st =
      (r, mkState files' (stdout st) (subprocess_calls st)) ∧
    (r = Ok tt ∨ r = Raise NotADirectoryError).
Proof.
  unfold mbind, M_bind, exists_, shutil_rmtree.
  destruct (fs st !! pathlib.str d) as [[text|]|] eqn:Hlook.
  - rewrite bool_decide_true by eauto. rewrite Hlook.
    exists (Raise NotADirectoryError), (fs st). split; [by destruct st | by right].
  - rewrite bool_decide_true by eauto. rewrite Hlook.
    eexists _, _. split; [reflexivity | by left].
  - rewrite bool_decide_false by (by intros [? ?]).
    exists (Ok tt), (fs st). split; [by destruct st | by left].
Qed.

Lemma remove_if_exists_file (d : pathlib.PurePath) (st : State) (text : option string) :
  fs st !! pathlib.str d = Some (File text) →
  (present ← exists_ d; if (present : bool) then shutil_rmtree d else mret tt) st =
  (Raise NotADirectoryError, st).
Proof.
  intros Hlook. unfold mbind, M_bind, exists_, shutil_rmtree.
  rewrite Hlook. rewrite bool_decide_true by eauto. by rewrite Hlook.
Qed.

Lemma clean_artifacts_effect (config : NuitkaBuildConfig) (st : State) :
  ∃ r files' printed,
    clean_artifacts config st =
      (r, mkState files' (stdout st ++ printed) (subprocess_calls st)) ∧
    (r = Ok tt ∨ r = Raise NotADirectoryError).
Proof.
  unfold clean_artifacts. destruct (clean config).
  - erewrite bind_ok; [|reflexivity]. simpl.
    set (st0 := mkState (fs st) (stdout st ++ [msg_cleaning]) (subprocess_calls st)).
    destruct (remove_if_exists_effect (output_dir config) st0)
      as (r1 & files1 & Hrun1 & [-> | ->]).
    + erewrite bind_ok by exact Hrun1.
      set (st1 := mkState files1 (stdout st0) (subprocess_calls st0)).
      destruct (remove_if_exists_effect (build_dir config) st1)
        as (r2 & files2 & Hrun2 & [-> | ->]).
      * erewrite bind_ok by exact Hrun2. eexists _, _, _. split; [reflexivity | by left].
      * erewrite bind_raise by exact Hrun2. eexists _, _, _. split; [reflexivity | by right].
    + erewrite bind_raise by exact Hrun1. eexists _, _, _. split; [reflexivity | by right].
  - exists (Ok tt), (fs st), []. rewrite app_nil_r. split; [by destruct st | by left].
Qed.

(** X12. [run_build] only ever adds to the output, and starts the compiler at
    most once: afterwards the list of child processes is unchanged, or
    longer by one command whose last argument is the entry-point path. *)
Theorem run_build_spawns_at_most_once (host : Host) (config : NuitkaBuildConfig)
    (st : State) :
  ∃ r st' printed,
    run_build host config st = (r, st') ∧
    stdout st' = stdout st ++ printed ∧
    (subprocess_calls st' = subprocess_calls st ∨
     ∃ cmd, subprocess_calls st' = subprocess_calls st ++ [cmd] ∧
            list.last cmd = Some (pathlib.str (main_file config))).
Proof.
  destruct (fs st !! pathlib.str (main_file config)) as [entry|] eqn:Hmain.
  - rewrite run_build_present by (rewrite Hmain; eauto).
    destruct (clean_artifacts_effect config st)
      as (r & files' & printed & Hclean & [-> | ->]).
    + erewrite bind_ok by exact Hclean.
      erewrite bind_ok by apply build_command_run.
      rewrite execute_run. cbn [fs stdout subprocess_calls].
      set (cmd := command_line host config _).
      assert (list.last cmd = Some (pathlib.str (main_file config))) as Hlast.
      { unfold cmd, command_line. by rewrite !app_assoc, last_snoc. }
      destruct (spawn host cmd files') as [rc files''|]; [destruct (rc =? 0)%Z|];
        eexists _, _, _; (split; [reflexivity|]); cbn [stdout subprocess_calls];
        (split; [by rewrite <- app_assoc|]); right; by exists cmd.
    + erewrite bind_raise by exact Hclean.
      eexists _, _, _. split; [reflexivity|]. split; [reflexivity | by left].
  - rewrite run_build_missing by done.
    eexists _, _, _. split; [reflexivity|]. split; [reflexivity | by left].
Qed.

(** X13. With [clean] set and a regular file in the place of the output
    directory, the run ends in an uncaught [NotADirectoryError] (exit
    status 1) right after the cleaning message: no file is touched and the
    compiler is not started. *)
Theorem clean_stops_at_regular_file (host : Host) (config : NuitkaBuildConfig)
    (st : State) (text : option string) :
  clean config = true →
  is_Some (fs st !! pathlib.str (main_file config)) →
  fs st !! pathlib.str (output_dir config) = Some (File text) →
  run_build host config st =
    (Raise NotADirectoryError,
     mkState (fs st) (stdout st ++ [msg_cleaning]) (subprocess_calls st)) ∧
  exit_status (run_build host config st).1 = 1%Z.
Proof.
  intros Hclean Hmain Hout.
  assert (run_build host config st =
          (Raise NotADirectoryError,
           mkState (fs st) (stdout st ++ [msg_cleaning]) (subprocess_calls st))) as Hrun.
  { rewrite run_build_present by done.
    apply bind_raise. unfold clean_artifacts. rewrite Hclean.
    erewrite bind_ok; [|reflexivity]. simpl.
    apply bind_raise. by apply (remove_if_exists_file _ _ text). }
  rewrite Hrun. by split.
Qed.

Lemma clean_stops_at_regular_file_witness :
  (run_build linux_host app_config blocked_state).1 = Raise NotADirectoryError ∧
  subprocess_calls (run_build linux_host app_config blocked_state).2 = [].
Proof.
  destruct (clean_stops_at_regular_file linux_host app_config blocked_state (Some "notes"))
    as [Hrun _].
  - reflexivity.
  - vm_compute. eauto.
  - vm_compute. reflexivity.
  - rewrite Hrun. split; reflexivity.
Defined.

(** X14. Cleaning is not all-or-nothing: when the output directory is a
    directory and the build path is a regular file outside it, the output
    directory is removed first and then the run ends in
    [NotADirectoryError], without starting the compiler. *)
Theorem clean_is_not_atomic (host : Host) (config : NuitkaBuildConfig)
    (st : State) (text : option string) :
  clean config = true →
  is_Some (fs st !! pathlib.str (main_file config)) →
  fs st !! pathlib.str (output_dir config) = Some Dir →
  fs st !! pathlib.str (build_dir config) = Some (File text) →
  within (output_dir config) (pathlib.str (build_dir config)) = false →
  ∃ st',
    run_build host config st = (Raise NotADirectoryError, st') ∧
    fs st' = removed (output_dir config) (fs st) ∧
    fs st' !! pathlib.str (output_dir config) = None ∧
    fs st' !! pathlib.str (build_dir config) = Some (File text) ∧
    subprocess_calls st' = subprocess_calls st.
Proof.
  intros Hclean Hmain Hout Hbuild Hapart.
  assert (removed (output_dir config) (fs st) !! pathlib.str (build_dir config)
          = Some (File text)) as Hbuild'.
  { by rewrite removed_lookup, Hapart. }
  eexists. split.
  - rewrite run_build_present by done.
    apply bind_raise. unfold clean_artifacts. rewrite Hclean.
    erewrite bind_ok; [|reflexivity]. simpl.
    erewrite bind_ok; cycle 1.
    { apply remove_if_exists_run. intros t. simpl. by rewrite Hout. }
    apply bind_raise. apply (remove_if_exists_file _ _ text). simpl.
    unfold cleaned. by rewrite Hout.
  - simpl. unfold cleaned. rewrite Hout.
    split; [done|]. split; [apply removed_self|]. by split.
Qed.

Lemma clean_is_not_atomic_witness :
  ∃ st', run_build linux_host app_config half_blocked_state =
           (Raise NotADirectoryError, st') ∧
         fs st' !! "dist" = None.
Proof.
  destruct (clean_is_not_atomic linux_host app_config half_blocked_state (Some "notes"))
    as (st' & Hrun & _ & Hgone & _).
  - reflexivity.
  - vm_compute. eauto.
  - vm_compute. reflexivity.
  - vm_compute. reflexivity.
  - reflexivity.
  - exists st'. exact (conj Hrun Hgone).
Defined.





(** X16. The entry point is checked once, before cleaning: when it lies
    inside the output directory, the cleaning step removes it and the
    compiler is started all the same, on a path that no longer exists. *)
Theorem entry_point_is_checked_before_cleaning (host : Host)
    (config : NuitkaBuildConfig) (st : State) :
  clean config = true →
  is_Some (fs st !! pathlib.str (main_file config)) →
  fs st !! pathlib.str (output_dir config) = Some Dir →
  within (output_dir config) (pathlib.str (main_file config)) = true →
  absent_or_dir (fs st) (build_dir config) →
  ∃ st1 cmd r st',
    clean_artifacts config st = (Ok tt, st1) ∧
    exists_ (main_file config) st1 = (Ok false, st1) ∧
    build_command host config st1 = (Ok cmd, st1) ∧
    run_build host config st = (r, st') ∧
    subprocess_calls st' = subprocess_calls st ++ [cmd] ∧
    list.last cmd = Some (pathlib.str (main_file config)).
Proof.
  intros Hclean Hmain Hout Hinside Hbuild.
  assert (absent_or_dir (fs st) (output_dir config)) as Hout'.
  { intros text. by rewrite Hout. }
  set (st1 := mkState (cleaned (build_dir config) (cleaned (output_dir config) (fs st)))
                      (stdout st ++ [msg_cleaning]) (subprocess_calls st)).
  assert (clean_artifacts config st = (Ok tt, st1)) as Hst1
    by (by apply clean_artifacts_run).
  set (cmd := command_line host config (List.filter (is_directory st1) common_dirs)).
  assert (∃ r st', run_build host config st = (r, st') ∧
                   subprocess_calls st' = subprocess_calls st ++ [cmd])
    as (r & st' & Hrun & Hcalls).
  { rewrite run_build_present by done.
    erewrite bind_ok by exact Hst1.
    erewrite bind_ok by apply build_command_run.
    rewrite execute_run. fold cmd.
    by destruct (spawn host cmd (fs st1)) as [rc files|]; [destruct (rc =? 0)%Z|];
      eexists _, _. }
  exists st1, cmd, r, st'. split; [done|]. split; [|split; [|split; [|split]]].
  - unfold exists_. simpl.
    rewrite cleaned_None; [by rewrite bool_decide_false by (by intros [? ?])|].
    unfold cleaned. rewrite Hout. by rewrite removed_lookup, Hinside.
  - apply build_command_run.
  - done.
  - done.
  - unfold cmd, command_line. by rewrite !app_assoc, last_snoc.
Qed.

Lemma entry_point_is_checked_before_cleaning_witness :
  ∃ cmd, subprocess_calls (run_build linux_host inside_config inside_state).2 = [cmd] ∧
         list.last cmd = Some "dist/app.py".
Proof.
  destruct (entry_point_is_checked_before_cleaning linux_host inside_config inside_state)
    as (st1 & cmd & r & st' & _ & _ & _ & Hrun & Hcalls & Hlast).
  - reflexivity.
  - vm_compute. eauto.
  - vm_compute. reflexivity.
  - reflexivity.
  - intros text. vm_compute. discriminate.
  - exists cmd. rewrite Hrun. exact (conj Hcalls Hlast).
Defined.

(** X17. What a build that reaches the compiler prints and does: after the
    lines of the cleaning step come the four banner lines, the last of them
    showing, joined by spaces, exactly the command that is started, then
    one closing line (success, failure with the status, or the installation
    hint); the files at the end are those the child left, or the cleaned
    ones when it could not be started. *)
Theorem transcript_of_a_build (host : Host) (config : NuitkaBuildConfig)
    (st st1 : State) :
  is_Some (fs st !! pathlib.str (main_file config)) →
  clean_artifacts config st = (Ok tt, st1) →
  ∃ cmd r st' final,
    build_command host config st1 = (Ok cmd, st1) ∧
    run_build host config st = (r, st') ∧
    stdout st' = stdout st1 ++ banner config cmd ++ [final] ∧
    banner config cmd !! 3%nat =
      Some (Str.nl +:+ "💻 Command:" +:+ Str.nl +:+ Str.join " " cmd +:+ Str.nl) ∧
    subprocess_calls st' = subprocess_calls st1 ++ [cmd] ∧
    fs st' = match spawn host cmd (fs st1) with
             | Exited _ files => files
             | NoSuchExecutable => fs st1
             end ∧
    (final = msg_success config ∨ (∃ rc, final = msg_failed rc) ∨ final = msg_not_found).
Proof.
  intros Hmain Hst1.
  exists (command_line host config (List.filter (is_directory st1) common_dirs)).
  rewrite run_build_present by done.
  erewrite bind_ok by exact Hst1.
  erewrite bind_ok by apply build_command_run.
  rewrite execute_run.
  destruct (spawn host _ (fs st1)) as [rc files|]; [destruct (rc =? 0)%Z|];
    eexists _, _, _; (split; [apply build_command_run|]);
    (split; [reflexivity|]); (split; [reflexivity|]); (split; [reflexivity|]);
    (split; [reflexivity|]); (split; [reflexivity|]); eauto.
Qed.

Lemma transcript_of_a_build_witness :
  ∃ cmd final,
    stdout (run_build failing_host app_config app_state).2 =
    [msg_cleaning] ++ banner app_config cmd ++ [final].
Proof.
  destruct (transcript_of_a_build failing_host app_config app_state
              (mkState (fs app_state) [msg_cleaning] []))
    as (cmd & r & st' & final & _ & Hrun & Hout & _).
  - vm_compute. eauto.
  - vm_compute. reflexivity.
  - exists cmd, final. rewrite Hrun. exact Hout.
Defined.

(** X18. Without [clean] the script itself removes and writes nothing: the
    compiler is started on the files as they were, and the files at the
    end are those it left (or the same ones, when it could not be
    started). *)
Theorem without_clean_files_are_left_to_the_child (host : Host)
    (config : NuitkaBuildConfig) (st : State) :
  clean config = false →
  is_Some (fs st !! pathlib.str (main_file config)) →
  ∃ cmd,
    build_command host config st = (Ok cmd, st) ∧
    run_build host config st = execute host config cmd st ∧
    subprocess_calls (run_build host config st).2 = subprocess_calls st ++ [cmd] ∧
    fs (run_build host config st).2 =
      match spawn host cmd (fs st) with
      | Exited _ files => files
      | NoSuchExecutable => fs st
      end.
Proof.
  intros Hclean Hmain. eexists. split; [apply build_command_run|].
  assert (run_build host config st =
          execute host config
            (command_line host config (List.filter (is_directory st) common_dirs)) st)
    as ->.
  { rewrite run_build_present by done.
    erewrite bind_ok by (by apply clean_artifacts_skip).
    by erewrite bind_ok by apply build_command_run. }
  split; [done|]. rewrite execute_run.
  by destruct (spawn host _ (fs st)) as [rc files|]; [destruct (rc =? 0)%Z|].
Qed.

Lemma without_clean_files_are_left_to_the_child_witness :
  fs (run_build failing_host loud_config built_state).2 = fs built_state.
Proof.
  destruct (without_clean_files_are_left_to_the_child failing_host loud_config built_state)
    as (cmd & _ & _ & _ & Hfs).
  - reflexivity.
  - vm_compute. eauto.
  - exact Hfs.
Defined.

Lemma other_hosts_ignore_icon_console_name_witness :
  build_command linux_host loud_config app_state =
  build_command linux_host app_config app_state.
Proof.
  apply (other_hosts_ignore_icon_console_name linux_host app_config loud_config app_state);
    (discriminate || reflexivity).
Defined.

Lemma command_reads_only_candidate_dirs_witness :
  (build_command linux_host app_config app_state).1 =
  (build_command linux_host app_config built_state).1.
Proof.
  apply (command_reads_only_candidate_dirs linux_host app_config app_state built_state).
  intros d Hd. unfold common_dirs in Hd.
  repeat (apply elem_of_cons in Hd as [-> | Hd]; [vm_compute; reflexivity|]).
  by apply elem_of_nil in Hd.
Defined.


(** X19. Once the compiler is reached, the script passes the outcome of the
    child on. The command starts with the interpreter, [-m] and [nuitka].
    Status 0 gives the success line and a normal return, with the files as
    the child left them. Any other status gives the failure line naming it
    and [sys.exit] with it, which for a status from 1 to 255 is the exit
    status of the script. When the interpreter cannot be started, the script
    prints the installation hint and exits with status 1. *)
Theorem child_outcome_is_passed_on (host : Host) (config : NuitkaBuildConfig)
    (st st1 : State) :
  is_Some (fs st !! pathlib.str (main_file config)) →
  clean_artifacts config st = (Ok tt, st1) →
  ∃ cmd,
    build_command host config st1 = (Ok cmd, st1) ∧
    take 3 cmd = [sys_executable host; "-m"; "nuitka"] ∧
    (∀ files, spawn host cmd (fs st1) = Exited 0 files →
       ∃ st', run_build host config st = (Ok tt, st') ∧
              exit_status (run_build host config st).1 = 0%Z ∧
              list.last (stdout st') = Some (msg_success config) ∧
              fs st' = files) ∧
    (∀ rc files, rc ≠ 0%Z → spawn host cmd (fs st1) = Exited rc files →
       ∃ st', run_build host config st = (Raise (SystemExit rc), st') ∧
              list.last (stdout st') = Some (msg_failed rc) ∧
              ((1 ≤ rc ≤ 255)%Z → exit_status (run_build host config st).1 = rc)) ∧
    (spawn host cmd (fs st1) = NoSuchExecutable →
       ∃ st', run_build host config st = (Raise (SystemExit 1), st') ∧
              exit_status (run_build host config st).1 = 1%Z ∧
              list.last (stdout st') = Some msg_not_found ∧
              fs st' = fs st1).
Proof.
  intros Hmain Hst1.
  exists (command_line host config (List.filter (is_directory st1) common_dirs)).
  split; [apply build_command_run|]. split; [reflexivity|].
  rewrite run_build_present by done.
  erewrite bind_ok by exact Hst1.
  erewrite bind_ok by apply build_command_run.
  rewrite execute_run.
  split; [|split].
  - intros files ->. eexists. split; [reflexivity|].
    split; [reflexivity|]. split; [apply last_after_banner | reflexivity].
  - intros rc files Hrc ->. apply Z.eqb_neq in Hrc. rewrite Hrc.
    eexists. split; [reflexivity|]. split; [apply last_after_banner|].
    intros Hrange. cbn [fst exit_status]. apply Z.mod_small. lia.
  - intros ->. eexists. split; [reflexivity|].
    split; [reflexivity|]. split; [apply last_after_banner | reflexivity].
Qed.

Lemma child_outcome_is_passed_on_witness :
  ∃ st', run_build failing_host app_config app_state = (Raise (SystemExit 3), st') ∧
         list.last (stdout st') = Some (msg_failed 3) ∧
         exit_status (run_build failing_host app_config app_state).1 = 3%Z.
Proof.
  destruct (child_outcome_is_passed_on failing_host app_config app_state
              (mkState (fs app_state) [msg_cleaning] []))
    as (cmd & _ & _ & _ & Hfail & _).
  - vm_compute. eauto.
  - vm_compute. reflexivity.
  - destruct (Hfail 3%Z (fs app_state)) as (st' & Hrun & Hlast & Hstatus);
      [discriminate | reflexivity |].
    exists st'. split; [exact Hrun|]. split; [exact Hlast|].
    apply Hstatus. lia.
Defined.
